(** * soaplib.serializers.primitive: scalar codecs between Python values
      and XML element trees

    A shallow embedding of [src/soaplib/serializers/primitive.py] (Python 2)
    together with the properties of its specification.  The first half of
    the file holds the definitions (the Python runtime notions the module
    relies on, then the module itself, class by class); the second half
    holds the lemmas and theorems. *)

From Stdlib Require Import ZArith NArith List String Ascii Bool Lia.
From Stdlib Require Import Floats.SpecFloat.
Import ListNotations.
Open Scope Z_scope.

Set Implicit Arguments.
Set Warnings "-register-all".

(* ================================================================== *)
(** * Part I: definitions *)
(* ================================================================== *)

(** ** Python text

    A Python 2 text object is either a byte string ([str]) or a [unicode]
    object; both are sequences of character codes.  lxml hands out [str]
    for pure ASCII text and [unicode] otherwise. *)

Definition codes (s : string) : list N :=
  map N_of_ascii (list_ascii_of_string s).

Inductive pytext :=
| PyStr (cs : list N)
| PyUnicode (cs : list N).

Definition chars (t : pytext) : list N :=
  match t with PyStr cs => cs | PyUnicode cs => cs end.

(** ** Exceptions and the result of a call *)

Inductive exn :=
| AttributeError
| TypeError
| ValueError
| AssertionError
| UnicodeEncodeError
| UnicodeDecodeError
| IndexError
| KeyError
| OverflowError
| Exception (msg : list N).

Inductive result (A : Type) :=
| Ok (a : A)
| Raise (e : exn).

Arguments Ok {A} a.
Arguments Raise {A} e.

Definition bind {A B} (m : result A) (k : A -> result B) : result B :=
  match m with
  | Ok a => k a
  | Raise e => Raise e
  end.

Declare Scope py_scope.
Delimit Scope py_scope with py.
Notation "x <- m ;; k" := (bind m (fun x => k))
  (at level 61, m at next level, right associativity) : py_scope.
Notation "' p <- m ;; k" := (bind m (fun x => match x with p => k end))
  (at level 61, p pattern, m at next level, right associativity) : py_scope.
Open Scope py_scope.

(** [try: body  except: handler] with a bare [except], which catches
    every exception. *)
Definition try_except {A} (body : result A) (handler : result A) : result A :=
  match body with
  | Ok a => Ok a
  | Raise _ => handler
  end.

Definition raises {A} (m : result A) : bool :=
  match m with Ok _ => false | Raise _ => true end.

(** ** Calendar values of the [datetime] module and zones of [pytz] *)

Record date := mkdate { year : Z; month : Z; day : Z }.

Inductive tzinfo :=
| UTC                          (* pytz.utc *)
| FixedOffsetTz (minutes : Z). (* pytz._FixedOffset(minutes) *)

Record datetime := mkdatetime {
  dt_year : Z; dt_month : Z; dt_day : Z;
  dt_hour : Z; dt_minute : Z; dt_second : Z; dt_microsecond : Z;
  dt_tzinfo : option tzinfo
}.

(** ** Python values that cross the codec interface *)

Inductive pyval :=
| VNone
| VBool (b : bool)
| VInt (z : Z)
| VText (t : pytext)
| VDate (d : date)
| VDateTime (t : datetime).

(** Truth value testing, as done by [and], [or], [not] and [if]. *)
Definition truthy (v : pyval) : bool :=
  match v with
  | VNone => false
  | VBool b => b
  | VInt z => negb (z =? 0)
  | VText t => match chars t with [] => false | _ => true end
  | VDate _ => true
  | VDateTime _ => true
  end.

(** [a and b] evaluates [b] only when [a] is true and otherwise yields [a]
    itself. *)
Definition py_and (a : pyval) (b : result pyval) : result pyval :=
  if truthy a then b else Ok a.

(** [a or b] yields [a] itself when it is true. *)
Definition py_or (a : pyval) (b : pyval) : pyval :=
  if truthy a then a else b.

(** ** Decimal digits *)

Definition is_digit (c : N) : bool := ((48 <=? c) && (c <=? 57))%N.
Definition digit_val (c : N) : Z := Z.of_N c - 48.
Definition digit_code (d : Z) : N := (48 + Z.to_N d)%N.

(** Value of a digit sequence read from the left. *)
Definition atoi_acc (acc : Z) (ds : list N) : Z :=
  fold_left (fun a c => a * 10 + digit_val c) ds acc.
Definition atoi (ds : list N) : Z := atoi_acc 0 ds.

(** Digits of a non-negative number, the most significant first. *)
Fixpoint digits_acc (fuel : nat) (n : Z) (acc : list N) : list N :=
  match fuel with
  | O => acc
  | S f =>
      let acc' := digit_code (n mod 10) :: acc in
      if n <? 10 then acc' else digits_acc f (n / 10) acc'
  end.

Definition digits (n : Z) : list N :=
  digits_acc (S (Z.to_nat (Z.log2 n))) n [].

(** ["%0wd" % n] for [0 <= n < 10^w]: exactly [w] digits. *)
Fixpoint zfill (w : nat) (n : Z) : list N :=
  match w with
  | O => []
  | S w' => zfill w' (n / 10) ++ [digit_code (n mod 10)]
  end.

(** [str(n)] for an [int] or a [long]. *)
Definition str_int (n : Z) : list N :=
  if n <? 0 then 45%N :: digits (- n) else digits n.

(** ** The builtins [int] and [long] on text

    Both accept optional surrounding white space, an optional sign and a
    non-empty run of decimal digits; [long] also accepts a trailing [L]
    or [l].  Since Python 2.2 [int] returns a [long] when the number does
    not fit a machine word, so both produce an unbounded integer. *)

Definition is_space (c : N) : bool :=
  existsb (N.eqb c) [9; 10; 11; 12; 13; 32]%N.

Fixpoint lstrip (cs : list N) : list N :=
  match cs with
  | c :: r => if is_space c then lstrip r else cs
  | [] => []
  end.

Definition strip (cs : list N) : list N := rev (lstrip (rev (lstrip cs))).

Definition parse_unsigned (ds : list N) : result Z :=
  match ds with
  | [] => Raise ValueError
  | _ => if forallb is_digit ds then Ok (atoi ds) else Raise ValueError
  end.

Definition parse_signed (cs : list N) : result Z :=
  match cs with
  | c :: ds =>
      if N.eqb c 45 then n <- parse_unsigned ds ;; Ok (- n)     (* - *)
      else if N.eqb c 43 then parse_unsigned ds                 (* + *)
      else parse_unsigned cs
  | [] => parse_unsigned cs
  end.

Definition drop_long_suffix (cs : list N) : list N :=
  match rev cs with
  | 76%N :: r => rev r
  | 108%N :: r => rev r
  | _ => cs
  end.

(** [int(x)] *)
Definition py_int (x : pyval) : result Z :=
  match x with
  | VInt z => Ok z
  | VBool b => Ok (if b then 1 else 0)
  | VText t => parse_signed (strip (chars t))
  | _ => Raise TypeError
  end.

(** [long(x)] *)
Definition py_long (x : pyval) : result Z :=
  match x with
  | VInt z => Ok z
  | VBool b => Ok (if b then 1 else 0)
  | VText t => parse_signed (drop_long_suffix (strip (chars t)))
  | _ => Raise TypeError
  end.

(** ** Element trees (the part of [lxml.etree] the module uses) *)

Inductive element :=
| Element (tag : string) (attrib : list (string * list N))
          (text : option pytext) (children : list element).

Definition elt_tag (e : element) : string :=
  match e with Element t _ _ _ => t end.
Definition elt_attrib (e : element) : list (string * list N) :=
  match e with Element _ a _ _ => a end.
Definition elt_text (e : element) : option pytext :=
  match e with Element _ _ t _ => t end.
Definition getchildren (e : element) : list element :=
  match e with Element _ _ _ c => c end.

(** [element.text] as a value: the text, or [None]. *)
Definition text_of (e : element) : pyval :=
  match elt_text e with
  | Some t => VText t
  | None => VNone
  end.

Fixpoint assoc_get {V} (k : string) (l : list (string * V)) : option V :=
  match l with
  | [] => None
  | (k', v) :: r => if String.eqb k k' then Some v else assoc_get k r
  end.

(** [element.get(key)] *)
Definition elt_get (e : element) (key : string) : option (list N) :=
  assoc_get key (elt_attrib e).

(** ['{%s}%s' % (ns, name)] *)
Definition qname (ns name : string) : string :=
  ("{" ++ ns ++ "}" ++ name)%string.

(** [etree.SubElement(parent, tag)] followed by the writes to the new
    child: the parent gains one last child. *)
Definition append_child (parent child : element) : element :=
  match parent with
  | Element t a x c => Element t a x (c ++ [child])
  end.

(** The child most recently appended to a parent. *)
Definition last_child (parent : element) : option element :=
  last (map Some (getchildren parent)) None.

Definition ns_xsd : string := "http://www.w3.org/2001/XMLSchema".
Definition ns_xsi : string := "http://www.w3.org/2001/XMLSchema-instance".
Definition _ns_xs : string := ns_xsd.
Definition _ns_xsi : string := ns_xsi.

(** ** Type descriptors: a class and its [Attributes] *)

(** A length bound is a number or the text ["unbounded"]. *)
Inductive pylen :=
| unbounded
| Len (n : Z).

Definition pylen_eqb (a b : pylen) : bool :=
  match a, b with
  | unbounded, unbounded => true
  | Len x, Len y => x =? y
  | _, _ => false
  end.

(** [str(l)] for a length bound. *)
Definition str_pylen (l : pylen) : list N :=
  match l with
  | unbounded => codes "unbounded"
  | Len n => str_int n
  end.

Definition text_eqb (a b : list N) : bool :=
  if list_eq_dec N.eq_dec a b then true else false.

Definition opt_text_eqb (a b : option (list N)) : bool :=
  match a, b with
  | None, None => true
  | Some x, Some y => text_eqb x y
  | _, _ => false
  end.

Record Attributes := mkAttributes {
  nillable : bool;
  min_occurs : Z;
  max_occurs : pylen;
  min_len : pylen;
  max_len : pylen;
  pattern : option (list N)
}.

(** A class object: [cls_id] stands for the identity of the object, which
    is what distinguishes two customised classes with equal attributes. *)
Record class := mkclass {
  cls_id : N;
  type_name : string;
  attrs : Attributes
}.

(** ** Formatting of calendar values: [isoformat] and [str] *)

Definition ch (c : ascii) : N := N_of_ascii c.

(** [date.isoformat()]: ["%04d-%02d-%02d"]. *)
Definition date_isoformat (d : date) : list N :=
  zfill 4 (year d) ++ [ch "-"] ++ zfill 2 (month d) ++ [ch "-"]
    ++ zfill 2 (day d).

(** [tzinfo.utcoffset(dt)], in minutes. *)
Definition utcoffset (z : tzinfo) : Z :=
  match z with
  | UTC => 0
  | FixedOffsetTz m => m
  end.

(** The offset suffix of [datetime.isoformat]: sign, hours, colon,
    minutes. *)
Definition format_utcoffset (off : Z) : list N :=
  (if off <? 0 then ch "-" else ch "+")
    :: zfill 2 (Z.abs off / 60) ++ [ch ":"] ++ zfill 2 (Z.abs off mod 60).

(** [datetime.isoformat(sep)]: the fraction is written only when the
    microsecond is not zero, the offset only when a zone is attached. *)
Definition datetime_isoformat (sep : N) (t : datetime) : list N :=
  zfill 4 (dt_year t) ++ [ch "-"] ++ zfill 2 (dt_month t) ++ [ch "-"]
    ++ zfill 2 (dt_day t) ++ [sep]
    ++ zfill 2 (dt_hour t) ++ [ch ":"] ++ zfill 2 (dt_minute t) ++ [ch ":"]
    ++ zfill 2 (dt_second t)
    ++ (if dt_microsecond t =? 0 then []
        else ch "." :: zfill 6 (dt_microsecond t))
    ++ match dt_tzinfo t with
       | None => []
       | Some z => format_utcoffset (utcoffset z)
       end.

(** [value.isoformat(sep)]: only dates and datetimes have the method. *)
Definition isoformat (value : pyval) (sep : N) : result pytext :=
  match value with
  | VDate d => Ok (PyStr (date_isoformat d))
  | VDateTime t => Ok (PyStr (datetime_isoformat sep t))
  | _ => Raise AttributeError
  end.

Definition is_ascii (cs : list N) : bool := forallb (fun c => c <? 128)%N cs.

(** [str(t)] for a text: a [unicode] object is encoded with the default
    (ASCII) codec. *)
Definition str_text (t : pytext) : result pytext :=
  match t with
  | PyStr cs => Ok (PyStr cs)
  | PyUnicode cs =>
      if is_ascii cs then Ok (PyStr cs) else Raise UnicodeEncodeError
  end.

(** [str(value)] *)
Definition py_str (value : pyval) : result pytext :=
  match value with
  | VNone => Ok (PyStr (codes "None"))
  | VBool b => Ok (PyStr (codes (if b then "True" else "False")))
  | VInt z => Ok (PyStr (str_int z))
  | VText t => str_text t
  | VDate d => Ok (PyStr (date_isoformat d))
  | VDateTime t => Ok (PyStr (datetime_isoformat (ch " ") t))
  end.

(** [text.lower()] on the ASCII letters. *)
Definition lower_code (c : N) : N :=
  if ((65 <=? c) && (c <=? 90))%N then (c + 32)%N else c.

Definition lower (t : pytext) : pytext :=
  match t with
  | PyStr cs => PyStr (map lower_code cs)
  | PyUnicode cs => PyUnicode (map lower_code cs)
  end.

(** [text[0]] *)
Definition index0 (t : pytext) : result N :=
  match chars t with
  | [] => Raise IndexError
  | c :: _ => Ok c
  end.

(** UTF-8 encoding of one code point. *)
Definition utf8_char (c : N) : list N :=
  (if c <? 128 then [c]
   else if c <? 2048 then [192 + c / 64; 128 + c mod 64]
   else if c <? 65536 then
     [224 + c / 4096; 128 + (c / 64) mod 64; 128 + c mod 64]
   else [240 + c / 262144; 128 + (c / 4096) mod 64;
         128 + (c / 64) mod 64; 128 + c mod 64])%N.

(** [text.encode('utf-8')]: a [str] is first decoded with the default
    (ASCII) codec, then the [unicode] object is encoded. *)
Definition encode_utf8 (t : pytext) : result pytext :=
  match t with
  | PyStr cs =>
      if is_ascii cs then Ok (PyStr (flat_map utf8_char cs))
      else Raise UnicodeDecodeError
  | PyUnicode cs => Ok (PyStr (flat_map utf8_char cs))
  end.

Definition string_encoding : string := "utf-8".

(** ** The helpers imported from [soaplib.serializers] *)

Definition nil_attr : string * list N := (qname _ns_xsi "nil", codes "true").

(** Modelled from the spec: [nillable_value] is not part of the source
    given; the specification says "if value is the absence marker and the
    kind is nillable, write a nil-indicator attribute and return, else
    invoke the kind's own write logic". *)
Definition nillable_value
    (func : class -> pyval -> string -> element -> string -> result element)
    (cls : class) (value : pyval) (tns : string) (parent_elt : element)
    (name : string) : result element :=
  match value with
  | VNone =>
      if nillable (attrs cls)
      then Ok (append_child parent_elt
                 (Element (qname tns name) [nil_attr] None []))
      else func cls value tns parent_elt name
  | _ => func cls value tns parent_elt name
  end.

(** Modelled from the spec: [nillable_element] is not part of the source
    given; the specification says "if the element carries a nil-indicator,
    return the absence marker, else invoke the kind's own read logic". *)
Definition nillable_element
    (func : class -> element -> result pyval)
    (cls : class) (elt : element) : result pyval :=
  match elt_get elt (qname _ns_xsi "nil") with
  | Some _ => Ok VNone
  | None => func cls elt
  end.

(** Modelled from the spec: [string_to_xml] is not part of the source
    given; the specification says that writing "appends a child node named
    {targetNamespace}name to parentNode, with content derived from
    value". *)
Definition string_to_xml (cls : class) (value : pytext) (tns : string)
    (parent_elt : element) (name : string) : result element :=
  Ok (append_child parent_elt (Element (qname tns name) [] (Some value) [])).

(** ** [SimpleType] and the construction of bound types *)

(** Modelled from the spec: [SimpleType.Attributes] is not part of the
    source given; the parent's defaults are a nillable value of optional
    presence.  The three [String] attributes default as the source's
    [String.Attributes] says. *)
Definition SimpleType_Attributes : Attributes :=
  {| nillable := true; min_occurs := 0; max_occurs := Len 1;
     min_len := Len 0; max_len := unbounded; pattern := None |}.

(** Keyword arguments of a type constructor: the attributes to override. *)
Record kwargs := mkkwargs {
  kw_nillable : option bool;
  kw_min_occurs : option Z;
  kw_max_occurs : option pylen;
  kw_min_len : option pylen;
  kw_max_len : option pylen;
  kw_pattern : option (option (list N))
}.

Definition no_kwargs : kwargs := mkkwargs None None None None None None.

Definition override {A} (o : option A) (d : A) : A :=
  match o with Some a => a | None => d end.

(** Modelled from the spec: [SimpleType.__new__] is not part of the source
    given; constructing a bound type yields a new class object ([new_id])
    whose attributes are the parent's, overridden by the keyword
    arguments, and which stay as they are from then on. *)
Definition SimpleType_new (new_id : N) (cls : class) (kw : kwargs) : class :=
  let a := attrs cls in
  {| cls_id := new_id;
     type_name := type_name cls;
     attrs :=
       {| nillable := override (kw_nillable kw) (nillable a);
          min_occurs := override (kw_min_occurs kw) (min_occurs a);
          max_occurs := override (kw_max_occurs kw) (max_occurs a);
          min_len := override (kw_min_len kw) (min_len a);
          max_len := override (kw_max_len kw) (max_len a);
          pattern := override (kw_pattern kw) (pattern a) |} |}.

(** Modelled from the spec: [SimpleType.is_default] is not part of the
    source given; it is "a pure equality comparison between a bound type's
    attribute record and its variant's canonical default record", here on
    the attributes of the parent. *)
Definition SimpleType_is_default (cls : class) : bool :=
  Bool.eqb (nillable (attrs cls)) (nillable SimpleType_Attributes)
  && (min_occurs (attrs cls) =? min_occurs SimpleType_Attributes)
  && pylen_eqb (max_occurs (attrs cls)) (max_occurs SimpleType_Attributes).

(** ** The schema-entries registry and the schema document

    The registry and the document are one shared object: an entry per
    registered class, holding the [simpleType] node emitted for it, whose
    only child is the [restriction] node.  A [restriction] handed out by
    [get_restriction_tag] is a reference into that object (the position of
    its entry), so that elements appended through it show in the
    document. *)

Record schema_entries := mkschema {
  simple_types : list (N * element)
}.

Definition fresh_schema : schema_entries := mkschema [].

(** Modelled from the spec: [has_class] is not part of the source given;
    the registry "records, per ValueKind, whether its restriction has
    already been emitted". *)
Definition has_class (se : schema_entries) (cls : class) : bool :=
  existsb (fun e => N.eqb (fst e) (cls_id cls)) (simple_types se).

(** Modelled from the spec: [get_restriction_tag] is not part of the source
    given; it "create[s] one restriction node" for the type in the schema
    document, recording the type in the registry, and returns the node. *)
Definition get_restriction_tag (cls : class) (se : schema_entries)
  : schema_entries * nat :=
  let restriction :=
    Element (qname ns_xsd "restriction")
            [("base"%string, codes (type_name cls))] None [] in
  let simple_type :=
    Element (qname ns_xsd "simpleType") [] None [restriction] in
  (mkschema (simple_types se ++ [(cls_id cls, simple_type)]),
   List.length (simple_types se)).

Fixpoint update_nth {A} (n : nat) (f : A -> A) (l : list A) : list A :=
  match l, n with
  | [], _ => []
  | x :: r, O => f x :: r
  | x :: r, S n' => x :: update_nth n' f r
  end.

Definition on_first_child (f : element -> element) (e : element) : element :=
  match e with
  | Element t a x (c :: r) => Element t a x (f c :: r)
  | _ => e
  end.

(** [e = etree.SubElement(restriction, tag); e.set('value', value)] for a
    [restriction] obtained from [get_restriction_tag]. *)
Definition SubElement_value (se : schema_entries) (restriction : nat)
    (tag : string) (value : list N) : schema_entries :=
  let facet := Element tag [("value"%string, value)] None [] in
  mkschema
    (update_nth restriction
       (fun e => (fst e, on_first_child (fun r => append_child r facet) (snd e)))
       (simple_types se)).

(** The [restriction] nodes of the schema document. *)
Definition restrictions (se : schema_entries) : list element :=
  flat_map (fun e => firstn 1 (getchildren (snd e))) (simple_types se).

(** The facets of a [restriction] node, as (tag, value) pairs. *)
Definition facets (r : element) : list (string * option (list N)) :=
  map (fun f => (elt_tag f, elt_get f "value")) (getchildren r).

(** ** Regular expressions (the part of [re] the module uses)

    The patterns of the module are built from literal characters, the
    class [\d], bracketed sets, named groups, the greedy [?] and [+] and
    counted repetition.  Matching is the backtracking search of [re]: the
    candidates are enumerated in the order in which the engine tries them,
    and [match] takes the first. *)

Inductive charset :=
| Char (c : N)         (* a literal character *)
| Digit                (* \d *)
| OneOf (cs : list N). (* [...] *)

Inductive regex :=
| Eps
| Atom (k : charset)
| Seq (r1 r2 : regex)
| Opt (r : regex)               (* r? *)
| Plus (k : charset)            (* k+ *)
| Repeat (n : nat) (r : regex)  (* r{n} *)
| Group (name : string) (r : regex). (* (?P<name>r) *)

Definition in_charset (k : charset) (c : N) : bool :=
  match k with
  | Char c' => N.eqb c c'
  | Digit => is_digit c
  | OneOf cs => existsb (N.eqb c) cs
  end.

Definition captures := list (string * list N).

(** All the ways for [k+] to match at the head of [s], longest first. *)
Fixpoint match_plus (k : charset) (s : list N) : list (list N) :=
  match s with
  | c :: r => if in_charset k c then match_plus k r ++ [r] else []
  | [] => []
  end.

(** The part of [s] consumed when [rest] is what remains of it. *)
Definition consumed (s rest : list N) : list N :=
  firstn (List.length s - List.length rest) s.

(** [rmatch r s caps]: the ways for [r] to match at the head of [s], each
    given by the remaining input and the groups set so far, in the order
    of the backtracking search. *)
Fixpoint rmatch (r : regex) (s : list N) (caps : captures)
  : list (list N * captures) :=
  match r with
  | Eps => [(s, caps)]
  | Atom k =>
      match s with
      | c :: rest => if in_charset k c then [(rest, caps)] else []
      | [] => []
      end
  | Seq r1 r2 =>
      flat_map (fun m => rmatch r2 (fst m) (snd m)) (rmatch r1 s caps)
  | Opt r1 => rmatch r1 s caps ++ [(s, caps)]
  | Plus k => map (fun rest => (rest, caps)) (match_plus k s)
  | Repeat n r1 =>
      (fix rep (n : nat) (s : list N) (caps : captures) :=
         match n with
         | O => [(s, caps)]
         | S n' => flat_map (fun m => rep n' (fst m) (snd m)) (rmatch r1 s caps)
         end) n s caps
  | Group name r1 =>
      map (fun m => (fst m, (name, consumed s (fst m)) :: snd m))
          (rmatch r1 s caps)
  end.

(** The names of the groups of a pattern. *)
Fixpoint group_names (r : regex) : list string :=
  match r with
  | Eps | Atom _ | Plus _ => []
  | Seq r1 r2 => group_names r1 ++ group_names r2
  | Opt r1 | Repeat _ r1 => group_names r1
  | Group name r1 => name :: group_names r1
  end.

(** A match object: the names of the pattern's groups, the groups that
    took part in the match, and the kind of the text matched. *)
Record match_obj := mkmatch {
  m_names : list string;
  m_groups : captures;
  m_unicode : bool
}.

Definition like (u : bool) (cs : list N) : pytext :=
  if u then PyUnicode cs else PyStr cs.

Definition is_unicode (t : pytext) : bool :=
  match t with PyStr _ => false | PyUnicode _ => true end.

(** [pattern.match(text)] for a compiled pattern: [None] when the pattern
    does not match at the start of the text; a text is required. *)
Definition re_match (r : regex) (text : pyval) : result (option match_obj) :=
  match text with
  | VText t =>
      match rmatch r (chars t) [] with
      | [] => Ok None
      | m :: _ => Ok (Some (mkmatch (group_names r) (snd m) (is_unicode t)))
      end
  | _ => Raise TypeError
  end.

(** [match.group(name)] *)
Definition group (m : match_obj) (name : string) : result pyval :=
  if existsb (String.eqb name) (m_names m) then
    match assoc_get name (m_groups m) with
    | Some cs => Ok (VText (like (m_unicode m) cs))
    | None => Ok VNone
    end
  else Raise IndexError.

(** [match.groupdict(default)]: a dictionary with every named group of the
    pattern, [default] standing for the groups that took no part. *)
Definition groupdict (m : match_obj) (default : pyval)
  : list (string * pyval) :=
  map (fun name =>
         (name, match assoc_get name (m_groups m) with
                | Some cs => VText (like (m_unicode m) cs)
                | None => default
                end))
      (m_names m).

(** [d[key]] *)
Definition dict_item (d : list (string * pyval)) (key : string)
  : result pyval :=
  match assoc_get key d with
  | Some v => Ok v
  | None => Raise KeyError
  end.

(** [d.get(key, default)] *)
Definition dict_get (d : list (string * pyval)) (key : string)
    (default : pyval) : pyval :=
  match assoc_get key d with
  | Some v => v
  | None => default
  end.

(** *** [re.compile]: from the text of a pattern to the pattern *)

Definition string_of_codes (cs : list N) : string :=
  string_of_list_ascii (map ascii_of_N cs).

(** The text before and after the first occurrence of [c]. *)
Fixpoint split_at (c : N) (s : list N) : option (list N * list N) :=
  match s with
  | [] => None
  | x :: r =>
      if N.eqb x c then Some ([], r)
      else match split_at c r with
           | Some (a, b) => Some (x :: a, b)
           | None => None
           end
  end.

(** Characters with a meaning of their own in a pattern. *)
Definition is_meta (c : N) : bool :=
  existsb (N.eqb c) (codes ".^$*+?{}[]\|()").

Definition is_alnum (c : N) : bool :=
  (is_digit c || ((65 <=? c) && (c <=? 90)) || ((97 <=? c) && (c <=? 122)))%N.

(** A quantifier after an item, if any. *)
Definition parse_postfix (a : regex) (p : list N) : option (regex * list N) :=
  match p with
  | 63%N :: r => Some (Opt a, r)                               (* ? *)
  | 43%N :: r =>                                               (* + *)
      match a with
      | Atom k => Some (Plus k, r)
      | _ => None
      end
  | 123%N :: r =>                                              (* {n} *)
      match split_at 125 r with
      | Some (ds, r') =>
          match ds with
          | [] => None
          | _ => if forallb is_digit ds
                 then Some (Repeat (Z.to_nat (atoi ds)) a, r')
                 else None
          end
      | None => None
      end
  | _ => Some (a, p)
  end.

(** A sequence of quantified items, up to the end of the text or to a
    closing parenthesis.  Constructs the module does not use are
    refused. *)
Fixpoint parse_re (fuel : nat) (p : list N) : option (regex * list N) :=
  match fuel with
  | O => None
  | S f =>
      match p with
      | [] => Some (Eps, [])
      | 41%N :: _ => Some (Eps, p)
      | _ =>
          let item :=
            match p with
            | 92%N :: 100%N :: r => Some (Atom Digit, r)                (* \d *)
            | 92%N :: c :: r =>
                if is_alnum c then None else Some (Atom (Char c), r)    (* \. *)
            | 91%N :: r =>                                              (* [...] *)
                match split_at 93 r with
                | Some (c1 :: c2 :: nil, r') =>
                    if existsb (N.eqb c1) (codes "^\") || N.eqb c2 92
                    then None else Some (Atom (OneOf [c1; c2]), r')
                | _ => None
                end
            | 40%N :: 63%N :: 80%N :: 60%N :: r =>                      (* (?P<name> *)
                match split_at 62 r with
                | Some (name, r') =>
                    match parse_re f r' with
                    | Some (body, 41%N :: r'') =>
                        Some (Group (string_of_codes name) body, r'')
                    | _ => None
                    end
                | None => None
                end
            | c :: r => if is_meta c then None else Some (Atom (Char c), r)
            | [] => None
            end in
          match item with
          | Some (a, r) =>
              match parse_postfix a r with
              | Some (a', r') =>
                  match parse_re f r' with
                  | Some (rest, r'') => Some (Seq a' rest, r'')
                  | None => None
                  end
              | None => None
              end
          | None => None
          end
      end
  end.

(** [re.compile(pattern)] *)
Definition re_compile (pattern : string) : result regex :=
  let p := codes pattern in
  match parse_re (S (List.length p)) p with
  | Some (r, []) => Ok r
  | _ => Raise (Exception (codes "re.error"))
  end.

(** The value of a module-level name whose initialiser cannot fail. *)
Definition compiled (m : result regex) : regex :=
  match m with Ok r => r | Raise _ => Eps end.

(** ** The module: its patterns *)

Definition _date_pattern : string :=
  "(?P<year>\d{4})-(?P<month>\d{2})-(?P<day>\d{2})".
Definition _time_pattern : string :=
  "(?P<hr>\d{2}):(?P<min>\d{2}):(?P<sec>\d{2})(?P<sec_frac>\.\d+)?".
Definition _offset_pattern : string :=
  "(?P<tz_hr>[+-]\d{2}):(?P<tz_min>\d{2})".
Definition _datetime_pattern : string :=
  (_date_pattern ++ "[T ]" ++ _time_pattern)%string.

Definition _local_re : regex :=
  Eval vm_compute in compiled (re_compile _datetime_pattern).
Definition _utc_re : regex :=
  Eval vm_compute in compiled (re_compile (_datetime_pattern ++ "Z")%string).
Definition _offset_re : regex :=
  Eval vm_compute in
    compiled (re_compile (_datetime_pattern ++ _offset_pattern)%string).

(** A module-level name is bound to a string or to a compiled pattern;
    only the latter has a [match] method. *)
Inductive pyobj :=
| OStr (s : string)
| OPattern (r : regex).

(** [obj.match] *)
Definition getattr_match (obj : pyobj)
  : result (pyval -> result (option match_obj)) :=
  match obj with
  | OPattern r => Ok (re_match r)
  | OStr _ => Raise AttributeError
  end.

(** ** Floating point: the builtin [float] is an IEEE 754 binary64 number *)

Definition prec : Z := 53.
Definition emax : Z := 1024.
Definition float := spec_float.

(** The binary64 number nearest to [n / d] (ties to even), for [0 <= n]
    and [0 < d]. *)
Definition float_of_ratio (n d : Z) : float :=
  match n with
  | Z0 => S754_zero false
  | _ =>
      let '(q, e, l) := SFdiv_core_binary prec emax n 0 d 0 in
      binary_round_aux prec emax false q e l
  end.

(** The binary64 number nearest to an integer. *)
Definition float_of_int (z : Z) : float := binary_normalize prec emax z 0 false.

(** A decimal literal without exponent, [digits], [digits.digits],
    [.digits] or [digits.]: its sign, its digits and the number of digits
    after the point. *)
Definition parse_decimal (cs : list N) : option (bool * list N * nat) :=
  let '(neg, body) :=
    match cs with
    | c :: r =>
        if N.eqb c 45 then (true, r)
        else if N.eqb c 43 then (false, r)
        else (false, cs)
    | [] => (false, cs)
    end in
  let '(ip, fp) :=
    match split_at 46 body with
    | Some (a, b) => (a, b)
    | None => (body, [])
    end in
  match ip ++ fp with
  | [] => None
  | ds => if forallb is_digit ds then Some (neg, ds, List.length fp) else None
  end.

(** [float(x)] for an integer or for a text holding a decimal literal
    without exponent; the conversion of a text is correctly rounded. *)
Definition py_float (x : pyval) : result float :=
  match x with
  | VInt z => Ok (float_of_int z)
  | VBool b => Ok (float_of_int (if b then 1 else 0))
  | VText t =>
      match parse_decimal (strip (chars t)) with
      | Some (neg, ds, k) =>
          let f := float_of_ratio (atoi ds) (10 ^ Z.of_nat k) in
          Ok (if neg then SFopp f else f)
      | None => Raise ValueError
      end
  | _ => Raise TypeError
  end.

(** [x * n] for a float [x] and an integer [n]: [n] is converted first. *)
Definition float_mul_int (x : float) (n : Z) : float :=
  SFmul prec emax x (float_of_int n).

(** [int(x)] for a float: truncation towards zero. *)
Definition int_of_float (x : float) : result Z :=
  match x with
  | S754_zero _ => Ok 0
  | S754_finite s m e =>
      let v := if 0 <=? e then Zpos m * 2 ^ e else Zpos m / 2 ^ (- e) in
      Ok (if s then - v else v)
  | S754_infinity _ => Raise OverflowError
  | S754_nan => Raise ValueError
  end.

(** ** Constructors of [datetime] and [pytz] *)

Definition is_leap (y : Z) : bool :=
  (y mod 4 =? 0) && (negb (y mod 100 =? 0) || (y mod 400 =? 0)).

Definition days_in_month (y m : Z) : Z :=
  if m =? 2 then (if is_leap y then 29 else 28)
  else if (m =? 4) || (m =? 6) || (m =? 9) || (m =? 11) then 30
  else 31.

Definition between (lo x hi : Z) : bool := (lo <=? x) && (x <=? hi).

Definition valid_date (y m d : Z) : bool :=
  between 1 y 9999 && between 1 m 12 && between 1 d (days_in_month y m).

Definition valid_time (h mi s us : Z) : bool :=
  between 0 h 23 && between 0 mi 59 && between 0 s 59 && between 0 us 999999.

(** [datetime.date(year, month, day)] *)
Definition datetime_date (y m d : Z) : result date :=
  if valid_date y m d then Ok (mkdate y m d) else Raise ValueError.

(** [datetime.datetime(year, month, day, hour, minute, second,
    microsecond, tzinfo)] *)
Definition datetime_datetime (y m d h mi s us : Z) (tz : option tzinfo)
  : result datetime :=
  if valid_date y m d && valid_time h mi s us
  then Ok (mkdatetime y m d h mi s us tz)
  else Raise ValueError.

(** [pytz.FixedOffset(offset, {})]: the zone at [offset] minutes from UTC;
    the zero offset is [pytz.utc] itself and an offset of a day or more is
    refused. *)
Definition FixedOffset (offset : Z) : result tzinfo :=
  if offset =? 0 then Ok UTC
  else if 1440 <=? Z.abs offset then Raise ValueError
  else Ok (FixedOffsetTz offset).

(** ** The module: its classes *)

(** *** [class String(SimpleType)] *)

Definition String_Attributes : Attributes :=
  {| nillable := nillable SimpleType_Attributes;
     min_occurs := min_occurs SimpleType_Attributes;
     max_occurs := max_occurs SimpleType_Attributes;
     min_len := Len 0;
     max_len := unbounded;
     pattern := None |}.

Definition String : class := mkclass 2 "string" String_Attributes.

(** [String.__new__(cls, *args, **kwargs)]: a single positional argument
    is the maximal length. *)
Definition String_new (new_id : N) (cls : class) (args : list pylen)
    (kw : kwargs) : result class :=
  if (List.length args <=? 1)%nat then
    let kw :=
      match args with
      | [a] => mkkwargs (kw_nillable kw) (kw_min_occurs kw) (kw_max_occurs kw)
                        (kw_min_len kw) (Some a) (kw_pattern kw)
      | _ => kw
      end in
    Ok (SimpleType_new new_id cls kw)
  else Raise AssertionError.

Definition String_is_default (cls : class) : bool :=
  SimpleType_is_default cls
  && pylen_eqb (min_len (attrs cls)) (min_len String_Attributes)
  && pylen_eqb (max_len (attrs cls)) (max_len String_Attributes)
  && opt_text_eqb (pattern (attrs cls)) (pattern String_Attributes).

(** [String.add_to_schema(cls, schema_entries)]; the registry is passed in
    and the registry as the call leaves it is returned. *)
Definition String_add_to_schema (cls : class) (se : schema_entries)
  : result schema_entries :=
  if negb (has_class se cls) && negb (String_is_default cls) then
    let '(se, restriction) := get_restriction_tag cls se in
    (* length *)
    let se :=
      if pylen_eqb (min_len (attrs cls)) (max_len (attrs cls)) then
        SubElement_value se restriction (qname _ns_xs "length")
                         (str_pylen (min_len (attrs cls)))
      else
        let se :=
          if negb (pylen_eqb (min_len (attrs cls)) (min_len String_Attributes))
          then SubElement_value se restriction (qname _ns_xs "minLength")
                                (str_pylen (min_len (attrs cls)))
          else se in
        if negb (pylen_eqb (max_len (attrs cls)) (max_len String_Attributes))
        then SubElement_value se restriction (qname _ns_xs "maxLength")
                              (str_pylen (max_len (attrs cls)))
        else se in
    (* pattern *)
    if negb (opt_text_eqb (pattern (attrs cls)) (pattern String_Attributes))
    then
      match pattern (attrs cls) with
      | Some p => Ok (SubElement_value se restriction (qname _ns_xs "pattern") p)
      | None => Raise TypeError
      end
    else Ok se
  else Ok se.

(** The body of [String.from_xml]: the variable [u] is rebound inside the
    [try], so the handler returns whichever value [u] holds when the
    exception is raised. *)
Definition String_from_xml_body (cls : class) (elt : element) : result pyval :=
  let u := py_or (text_of elt) (VText (PyStr [])) in
  match py_str u with
  | Raise _ => Ok u
  | Ok u' => try_except (r <- encode_utf8 u' ;; Ok (VText r)) (Ok (VText u'))
  end.

Definition String_from_xml : class -> element -> result pyval :=
  nillable_element String_from_xml_body.

(** *** [class Integer(SimpleType)] *)

Definition Integer : class := mkclass 4 "integer" SimpleType_Attributes.

Definition Integer_from_xml_body (cls : class) (elt : element) : result pyval :=
  let i := text_of elt in
  try_except (n <- py_int i ;; Ok (VInt n)) (n <- py_long i ;; Ok (VInt n)).

Definition Integer_from_xml : class -> element -> result pyval :=
  nillable_element Integer_from_xml_body.

Definition Integer_to_xml_body (cls : class) (value : pyval) (tns : string)
    (parent_elt : element) (name : string) : result element :=
  s <- py_str value ;; string_to_xml cls s tns parent_elt name.

Definition Integer_to_xml
  : class -> pyval -> string -> element -> string -> result element :=
  nillable_value Integer_to_xml_body.

(** *** [class Boolean(SimpleType)] *)

Definition Boolean : class := mkclass 10 "boolean" SimpleType_Attributes.

Definition Boolean_to_xml_body (cls : class) (value : pyval) (tns : string)
    (parent_elt : element) (name : string) : result element :=
  s <- py_str (VBool (truthy value)) ;;
  string_to_xml cls (lower s) tns parent_elt name.

Definition Boolean_to_xml
  : class -> pyval -> string -> element -> string -> result element :=
  nillable_value Boolean_to_xml_body.

(** [s.lower()[0] == 't'] *)
Definition first_lower_is_t (s : pyval) : result pyval :=
  match s with
  | VText t => c <- index0 (lower t) ;; Ok (VBool (N.eqb c (ch "t")))
  | _ => Raise AttributeError
  end.

Definition Boolean_from_xml_body (cls : class) (elt : element) : result pyval :=
  let s := text_of elt in
  py_and s (first_lower_is_t s).

Definition Boolean_from_xml : class -> element -> result pyval :=
  nillable_element Boolean_from_xml_body.

(** *** [class Mandatory]: a namespace of two bound types *)

Definition Mandatory_String : result class :=
  String_new 100 String []
    (mkkwargs (Some false) (Some 1) None (Some (Len 1)) None None).

(** *** [class Date(SimpleType)] *)

Definition Date : class := mkclass 6 "date" SimpleType_Attributes.

(** The characters [%s] puts in a message for a value. *)
Definition format_s (v : pyval) : list N :=
  match v with
  | VText t => chars t
  | _ => match py_str v with Ok t => chars t | Raise _ => [] end
  end.

(** [int(fields[name])] *)
Definition int_field (fields : list (string * pyval)) (name : string)
  : result Z :=
  v <- dict_item fields name ;; py_int v.

Definition Date_to_xml_body (cls : class) (value : pyval) (tns : string)
    (parent_elt : element) (name : string) : result element :=
  s <- isoformat value (ch "T") ;; string_to_xml cls s tns parent_elt name.

Definition Date_to_xml
  : class -> pyval -> string -> element -> string -> result element :=
  nillable_value Date_to_xml_body.

(** [Date.from_xml], with the object that the name [_date_pattern] is
    bound to as a parameter: the method [match] is looked up on it. *)
Definition Date_from_xml_with (date_pattern : pyobj) (cls : class)
    (elt : element) : result pyval :=
  let text := text_of elt in
  let parse_date (date_match : match_obj) : result pyval :=
    let fields := groupdict date_match (VInt 0) in
    year <- int_field fields "year" ;;
    month <- int_field fields "month" ;;
    day <- int_field fields "day" ;;
    d <- datetime_date year month day ;;
    Ok (VDate d) in
  do_match <- getattr_match date_pattern ;;
  m <- do_match text ;;
  match m with
  | None =>
      Raise (Exception (codes "Date [" ++ format_s text
                          ++ codes "] not in known format"))
  | Some m => parse_date m
  end.

(** In the module [_date_pattern] is bound to the text of the pattern, not
    to a compiled pattern. *)
Definition Date_from_xml_body : class -> element -> result pyval :=
  Date_from_xml_with (OStr _date_pattern).

Definition Date_from_xml : class -> element -> result pyval :=
  nillable_element Date_from_xml_body.

(** *** [class DateTime(SimpleType)] *)

Definition DateTime : class := mkclass 7 "dateTime" SimpleType_Attributes.

Definition DateTime_to_xml_body (cls : class) (value : pyval) (tns : string)
    (parent_elt : element) (name : string) : result element :=
  s <- isoformat value (ch "T") ;; string_to_xml cls s tns parent_elt name.

Definition DateTime_to_xml
  : class -> pyval -> string -> element -> string -> result element :=
  nillable_value DateTime_to_xml_body.

(** [int(float(fields.get("sec_frac", 0)) * 10 ** 6)] *)
Definition microsec_of (frac : pyval) : result Z :=
  f <- py_float frac ;; int_of_float (float_mul_int f (10 ^ 6)).

(** The local function [parse_date(date_match, tz=None)] of
    [DateTime.from_xml]. *)
Definition parse_datetime (date_match : match_obj) (tz : option tzinfo)
  : result pyval :=
  let fields := groupdict date_match (VInt 0) in
  year <- int_field fields "year" ;;
  month <- int_field fields "month" ;;
  day <- int_field fields "day" ;;
  hr <- int_field fields "hr" ;;
  min <- int_field fields "min" ;;
  sec <- int_field fields "sec" ;;
  microsec <- microsec_of (dict_get fields "sec_frac" (VInt 0)) ;;
  t <- datetime_datetime year month day hr min sec microsec tz ;;
  Ok (VDateTime t).

(** [int(match.group(name))] *)
Definition int_group (m : match_obj) (name : string) : result Z :=
  v <- group m name ;; py_int v.

Definition not_in_known_format (text : pyval) : exn :=
  Exception (codes "DateTime [" ++ format_s text
               ++ codes "] not in known format").

Definition DateTime_from_xml_body (cls : class) (elt : element)
  : result pyval :=
  let text := text_of elt in
  m <- re_match _utc_re text ;;
  match m with
  | Some m => parse_datetime m (Some UTC)
  | None =>
      m <- re_match _offset_re text ;;
      match m with
      | Some m =>
          tz_hr <- int_group m "tz_hr" ;;
          tz_min <- int_group m "tz_min" ;;
          tz <- FixedOffset (tz_hr * 60 + tz_min) ;;
          parse_datetime m (Some tz)
      | None =>
          m <- re_match _local_re text ;;
          match m with
          | None => Raise (not_in_known_format text)
          | Some m => parse_datetime m None
          end
      end
  end.

Definition DateTime_from_xml : class -> element -> result pyval :=
  nillable_element DateTime_from_xml_body.

(** ** Reading back what was written *)

(** An empty parent to write into. *)
Definition root : element := Element "root" [] None [].

(** [from_xml] applied to the element that [to_xml] appends. *)
Definition roundtrip
    (to_xml : class -> pyval -> string -> element -> string -> result element)
    (from_xml : class -> element -> result pyval)
    (cls : class) (value : pyval) : result pyval :=
  parent <- to_xml cls value "tns"%string root "retval"%string ;;
  match last_child parent with
  | Some e => from_xml cls e
  | None => Raise IndexError
  end.

(** An element holding a text. *)
Definition text_element (s : string) : element :=
  Element "retval" [] (Some (PyStr (codes s))) [].

(** ** Predicates used in the statements *)

(** A text without white space. *)
Definition no_space (cs : list N) : Prop :=
  forall c, In c cs -> is_space c = false.

(** An element that carries the nil indicator. *)
Definition nil_marked (e : element) : bool :=
  match elt_get e (qname _ns_xsi "nil") with Some _ => true | None => false end.

(** The registry after an emission: the entries it had, then the entry of
    the class with its one restriction. *)
Definition emitted (cls : class) (se se1 : schema_entries) : Prop :=
  exists r,
    se1 = mkschema (simple_types se
                      ++ [(cls_id cls,
                           Element (qname ns_xsd "simpleType") [] None [r])]).

(** The text of a fraction group: a point and digits. *)
Definition frac_text (ds : list N) : pyval := VText (PyStr (ch "." :: ds)).

(** [f i && f (i+1) && ... && f (i+n-1)] *)
Fixpoint all_from (f : Z -> bool) (i : Z) (n : nat) : bool :=
  match n with
  | O => true
  | S n' => f i && all_from f (i + 1) n'
  end.

(** The fraction written with [k] digits for the number [n] converts to
    exactly [n * 10^(6-k)] microseconds. *)
Definition frac_exact (k : nat) (n : Z) : bool :=
  match microsec_of (frac_text (zfill k n)) with
  | Ok r => r =? n * 10 ^ (6 - Z.of_nat k)
  | Raise _ => false
  end.

(** The six-digit fraction that [isoformat] writes for [us] microseconds
    reads back as [us]. *)
Definition usec_exact (us : Z) : bool :=
  match microsec_of (frac_text (zfill 6 us)) with
  | Ok r => r =? us
  | Raise _ => false
  end.

(** The facets that [String.add_to_schema] writes for a set of attributes,
    in the order in which it writes them, as (tag, value) pairs. *)
Definition string_facets (a : Attributes) : list (string * list N) :=
  (if pylen_eqb (min_len a) (max_len a)
   then [(qname _ns_xs "length", str_pylen (min_len a))]
   else
     (if pylen_eqb (min_len a) (Len 0) then []
      else [(qname _ns_xs "minLength", str_pylen (min_len a))])
     ++ (if pylen_eqb (max_len a) unbounded then []
         else [(qname _ns_xs "maxLength", str_pylen (max_len a))]))
  ++ match pattern a with
     | Some p => [(qname _ns_xs "pattern", p)]
     | None => []
     end.

(** A facet as read from the document. *)
Definition read_facet (f : string * list N) : string * option (list N) :=
  (fst f, Some (snd f)).

(** A continuation byte of UTF-8. *)
Definition is_cont (b : N) : bool := ((128 <=? b) && (b <? 192))%N.

(** [bytes.decode('utf-8')]: strict decoding; over-long forms, stray
    continuation bytes, truncated sequences and code points above
    U+10FFFF are refused. *)
Fixpoint utf8_decode (bs : list N) : result (list N) :=
  match bs with
  | [] => Ok []
  | b :: r =>
      if (b <? 128)%N then
        cs <- utf8_decode r ;; Ok (b :: cs)
      else if ((194 <=? b) && (b <? 224))%N then
        match r with
        | c1 :: r' =>
            if is_cont c1 then
              cs <- utf8_decode r' ;;
              Ok (((b - 192) * 64 + (c1 - 128))%N :: cs)
            else Raise UnicodeDecodeError
        | _ => Raise UnicodeDecodeError
        end
      else if ((224 <=? b) && (b <? 240))%N then
        match r with
        | c1 :: c2 :: r' =>
            let cp := ((b - 224) * 4096 + (c1 - 128) * 64 + (c2 - 128))%N in
            if is_cont c1 && is_cont c2 && (2048 <=? cp)%N then
              cs <- utf8_decode r' ;; Ok (cp :: cs)
            else Raise UnicodeDecodeError
        | _ => Raise UnicodeDecodeError
        end
      else if ((240 <=? b) && (b <? 245))%N then
        match r with
        | c1 :: c2 :: c3 :: r' =>
            let cp := ((b - 240) * 262144 + (c1 - 128) * 4096
                       + (c2 - 128) * 64 + (c3 - 128))%N in
            if is_cont c1 && is_cont c2 && is_cont c3
               && (65536 <=? cp)%N && (cp <? 1114112)%N then
              cs <- utf8_decode r' ;; Ok (cp :: cs)
            else Raise UnicodeDecodeError
        | _ => Raise UnicodeDecodeError
        end
      else Raise UnicodeDecodeError
  end.

(** [unicode(value, 'utf-8')]: only a [str] can be decoded. *)
Definition py_unicode_utf8 (value : pyval) : result pytext :=
  match value with
  | VText (PyStr bs) => cs <- utf8_decode bs ;; Ok (PyUnicode cs)
  | _ => Raise TypeError
  end.

(** [isinstance(value, unicode)] *)
Definition isinstance_unicode (value : pyval) : bool :=
  match value with
  | VText (PyUnicode _) => true
  | _ => false
  end.

Definition String_to_xml_body (cls : class) (value : pyval) (tns : string)
    (parent_elt : element) (name : string) : result element :=
  value <- (if negb (isinstance_unicode value)
            then py_unicode_utf8 value
            else match value with
                 | VText t => Ok t
                 | _ => Raise TypeError
                 end) ;;
  string_to_xml cls value tns parent_elt name.

Definition String_to_xml
  : class -> pyval -> string -> element -> string -> result element :=
  nillable_value String_to_xml_body.

(** [class AnyUri(String)]: the methods of [String] under another type
    name. *)
Definition AnyUri : class := mkclass 3 "anyURI" String_Attributes.

(** Code points that UTF-8 can hold. *)
Definition valid_codepoints (cs : list N) : bool :=
  forallb (fun c => c <? 1114112)%N cs.

(** The pattern of a named group of [n] digits, [(?P<name>\d{n})]. *)
Definition digits_group (name : string) (n : nat) : regex :=
  Group name (Seq (Repeat n (Atom Digit)) Eps).

(** The pattern of the fraction group, [(?P<sec_frac>\.\d+)]. *)
Definition frac_group : regex :=
  Group "sec_frac" (Seq (Atom (Char 46)) (Seq (Plus Digit) Eps)).

(** The pattern [_datetime_pattern] followed by [tail]. *)
Definition datetime_re (tail : regex) : regex :=
  Seq (digits_group "year" 4) (Seq (Atom (Char 45))
  (Seq (digits_group "month" 2) (Seq (Atom (Char 45))
  (Seq (digits_group "day" 2) (Seq (Atom (OneOf [84; 32]%N))
  (Seq (digits_group "hr" 2) (Seq (Atom (Char 58))
  (Seq (digits_group "min" 2) (Seq (Atom (Char 58))
  (Seq (digits_group "sec" 2) (Seq (Opt frac_group) tail))))))))))).

(** What follows [_datetime_pattern] in [_utc_re] and in [_offset_re]. *)
Definition utc_tail : regex := Seq (Atom (Char 90)) Eps.
Definition offset_tail : regex :=
  Seq (Group "tz_hr" (Seq (Atom (OneOf [43; 45]%N))
                          (Seq (Repeat 2 (Atom Digit)) Eps)))
      (Seq (Atom (Char 58)) (Seq (digits_group "tz_min" 2) Eps)).

(** The first character of [s] is in the class [k]. *)
Definition first_in (k : charset) (s : list N) : bool :=
  match s with
  | c :: _ => in_charset k c
  | [] => false
  end.

(** A pattern that matches no text starting with a digit or a point. *)
Definition rejects_fraction (tail : regex) : Prop :=
  forall s caps,
    first_in Digit s = true \/ first_in (Char 46) s = true ->
    rmatch tail s caps = [].

(** The fraction that [isoformat] writes for a number of microseconds. *)
Definition frac_part (us : Z) : list N :=
  if us =? 0 then [] else ch "." :: zfill 6 us.

(** The groups after the fraction group had its turn. *)
Definition frac_caps (us : Z) (caps : captures) : captures :=
  if us =? 0 then caps else ("sec_frac"%string, ch "." :: zfill 6 us) :: caps.

(** The offset suffix that [isoformat] writes for a zone. *)
Definition zone_part (tz : option tzinfo) : list N :=
  match tz with
  | None => []
  | Some z => format_utcoffset (utcoffset z)
  end.

(** The groups of the date and time part. *)
Definition stamp_caps (t : datetime) : captures :=
  [("sec"%string, zfill 2 (dt_second t)); ("min"%string, zfill 2 (dt_minute t));
   ("hr"%string, zfill 2 (dt_hour t)); ("day"%string, zfill 2 (dt_day t));
   ("month"%string, zfill 2 (dt_month t)); ("year"%string, zfill 4 (dt_year t))].

(** A value that the constructor [datetime.datetime] accepts. *)
Definition valid_datetime (t : datetime) : bool :=
  valid_date (dt_year t) (dt_month t) (dt_day t)
  && valid_time (dt_hour t) (dt_minute t) (dt_second t) (dt_microsecond t).

(** The microseconds that [float] and [int] bring back unchanged. *)
Definition usec_survives (us : Z) : bool := (us =? 0) || usec_exact us.

(** The zones that [pytz] builds and that the offset suffix brings back:
    none, UTC, and a fixed offset of less than a day that is positive or a
    whole number of hours. *)
Definition zone_survives (tz : option tzinfo) : bool :=
  match tz with
  | None => true
  | Some UTC => true
  | Some (FixedOffsetTz m) =>
      negb (m =? 0) && (Z.abs m <? 1440) && ((0 <? m) || (m mod 60 =? 0))
  end.

(** The names of the groups of [_datetime_pattern]. *)
Definition datetime_groups : list string :=
  ["year"; "month"; "day"; "hr"; "min"; "sec"; "sec_frac"]%string.

(** The zone that [DateTime.from_xml] builds from the suffix written for
    the zone [z]: [FixedOffset(tz_hr * 60 + tz_min)], the hours being read
    with the sign and the minutes without it. *)
Definition zone_read_back (z : tzinfo) : result tzinfo :=
  FixedOffset ((if utcoffset z <? 0 then - (Z.abs (utcoffset z) / 60)
                else Z.abs (utcoffset z) / 60) * 60
               + Z.abs (utcoffset z) mod 60).

(** [t.replace(tzinfo=tz)] *)
Definition replace_tzinfo (t : datetime) (tz : option tzinfo) : datetime :=
  mkdatetime (dt_year t) (dt_month t) (dt_day t) (dt_hour t) (dt_minute t)
    (dt_second t) (dt_microsecond t) tz.

(** The call raised an [Exception] of the module's own, as opposed to an
    error of a builtin or of a library. *)
Definition is_exception {A} (m : result A) : bool :=
  match m with
  | Raise (Exception _) => true
  | _ => false
  end.

(** *** [class Any(SimpleType)]

    The values of [Any] are texts and elements.  [etree.fromstring], the
    XML parser of lxml, is a parameter of the model. *)

Inductive any_value :=
| ANone
| AText (t : pytext)
| ATree (e : element).

Definition Any : class := mkclass 0 "anyType" SimpleType_Attributes.

(** [nillable_value] and [nillable_element], as above, for the values of
    [Any]. *)
Definition nillable_value_any
    (func : class -> any_value -> string -> element -> string
            -> result element)
    (cls : class) (value : any_value) (tns : string) (parent_elt : element)
    (name : string) : result element :=
  match value with
  | ANone =>
      if nillable (attrs cls)
      then Ok (append_child parent_elt
                 (Element (qname tns name) [nil_attr] None []))
      else func cls value tns parent_elt name
  | _ => func cls value tns parent_elt name
  end.

Definition nillable_element_any
    (func : class -> element -> result any_value)
    (cls : class) (elt : element) : result any_value :=
  match elt_get elt (qname _ns_xsi "nil") with
  | Some _ => Ok ANone
  | None => func cls elt
  end.

(** [Any.to_xml]: a text is parsed first; the element is appended to a new
    child of the parent.  Appending [None] is a [TypeError]. *)
Definition Any_to_xml_body (fromstring : pytext -> result element)
    (cls : class) (value : any_value) (tns : string) (parent_elt : element)
    (name : string) : result element :=
  value <- match value with
           | AText t => fromstring t
           | ATree e => Ok e
           | ANone => Raise TypeError
           end ;;
  Ok (append_child parent_elt (Element (qname tns name) [] None [value])).

Definition Any_to_xml (fromstring : pytext -> result element)
  : class -> any_value -> string -> element -> string -> result element :=
  nillable_value_any (Any_to_xml_body fromstring).

(** [Any.from_xml]: the first child, or [None]. *)
Definition Any_from_xml_body (cls : class) (elt : element)
  : result any_value :=
  let children := getchildren elt in
  match children with
  | [] => Ok ANone
  | c :: _ => Ok (ATree c)
  end.

Definition Any_from_xml : class -> element -> result any_value :=
  nillable_element_any Any_from_xml_body.

(** [Any.from_xml] applied to the element that [Any.to_xml] appends. *)
Definition roundtrip_any (fromstring : pytext -> result element)
    (cls : class) (value : any_value) : result any_value :=
  parent <- Any_to_xml fromstring cls value "tns"%string root "retval"%string ;;
  match last_child parent with
  | Some e => Any_from_xml cls e
  | None => Raise IndexError
  end.

(* ================================================================== *)
(** * Part II: properties *)
(* ================================================================== *)

(** ** Decimal digits: writing and reading back *)

Lemma is_digit_digit_code (d : Z) :
  0 <= d < 10 -> is_digit (digit_code d) = true.
Proof.
  intros H. unfold is_digit, digit_code.
  apply andb_true_iff. split; apply N.leb_le; lia.
Qed.

Lemma digit_val_digit_code (d : Z) : 0 <= d -> digit_val (digit_code d) = d.
Proof. intros H. unfold digit_val, digit_code. lia. Qed.

Lemma atoi_acc_app (a : Z) (xs ys : list N) :
  atoi_acc a (xs ++ ys) = atoi_acc (atoi_acc a xs) ys.
Proof. unfold atoi_acc. apply fold_left_app. Qed.

Lemma atoi_snoc (xs : list N) (c : N) :
  atoi (xs ++ [c]) = atoi xs * 10 + digit_val c.
Proof. unfold atoi. rewrite atoi_acc_app. reflexivity. Qed.

Lemma digits_acc_app (fuel : nat) :
  forall n acc, digits_acc fuel n acc = digits_acc fuel n [] ++ acc.
Proof.
  induction fuel as [|f IH]; intros n acc; simpl; [reflexivity|].
  destruct (n <? 10); [reflexivity|].
  rewrite (IH (n / 10) (_ :: acc)), (IH (n / 10) [_]).
  rewrite <- app_assoc. reflexivity.
Qed.

Lemma digits_acc_step (f : nat) (n : Z) :
  digits_acc (S f) n [] =
  if n <? 10 then [digit_code (n mod 10)]
  else digits_acc f (n / 10) [] ++ [digit_code (n mod 10)].
Proof. simpl. destruct (n <? 10); [reflexivity|]. apply digits_acc_app. Qed.

Lemma atoi_digits_acc (fuel : nat) :
  forall n, 0 <= n < 2 ^ Z.of_nat fuel -> atoi (digits_acc fuel n []) = n.
Proof.
  induction fuel as [|f IH]; intros n Hn.
  - simpl in *. assert (n = 0) by lia. subst. reflexivity.
  - rewrite digits_acc_step. destruct (Z.ltb_spec n 10) as [Hlt|Hge].
    + rewrite Z.mod_small by lia. unfold atoi, atoi_acc. simpl.
      rewrite digit_val_digit_code; lia.
    + rewrite atoi_snoc, IH, digit_val_digit_code.
      * pose proof (Z.div_mod n 10). lia.
      * apply Z.mod_pos_bound. lia.
      * rewrite Nat2Z.inj_succ, Z.pow_succ_r in Hn by lia.
        split; [apply Z.div_pos; lia|].
        apply Z.div_lt_upper_bound; lia.
Qed.

Lemma all_digits_digits_acc (fuel : nat) :
  forall n, 0 <= n -> forallb is_digit (digits_acc fuel n []) = true.
Proof.
  induction fuel as [|f IH]; intros n Hn; [reflexivity|].
  rewrite digits_acc_step.
  assert (Hd : is_digit (digit_code (n mod 10)) = true)
    by (apply is_digit_digit_code, Z.mod_pos_bound; lia).
  destruct (n <? 10).
  - simpl. rewrite Hd. reflexivity.
  - rewrite forallb_app, IH by (apply Z.div_pos; lia).
    simpl. rewrite Hd. reflexivity.
Qed.

Lemma digits_nonempty (n : Z) : digits n <> [].
Proof.
  unfold digits. rewrite digits_acc_step.
  destruct (n <? 10); [discriminate|].
  intros H. apply app_eq_nil in H. destruct H; discriminate.
Qed.

Lemma atoi_digits (n : Z) : 0 <= n -> atoi (digits n) = n.
Proof.
  intros Hn. unfold digits. apply atoi_digits_acc.
  split; [assumption|].
  destruct (Z.eq_dec n 0) as [->|Hnz]; [reflexivity|].
  rewrite Nat2Z.inj_succ, Z2Nat.id by apply Z.log2_nonneg.
  apply Z.log2_spec. lia.
Qed.

Lemma all_digits_digits (n : Z) : 0 <= n -> forallb is_digit (digits n) = true.
Proof. intros. unfold digits. apply all_digits_digits_acc. assumption. Qed.

Lemma parse_unsigned_digits (n : Z) :
  0 <= n -> parse_unsigned (digits n) = Ok n.
Proof.
  intros Hn. unfold parse_unsigned.
  pose proof (digits_nonempty n) as Hne.
  destruct (digits n) eqn:E; [congruence|].
  rewrite <- E, all_digits_digits, atoi_digits by assumption. reflexivity.
Qed.

(** ** White space *)

Lemma lstrip_no_space (cs : list N) : no_space cs -> lstrip cs = cs.
Proof.
  destruct cs as [|c r]; intros H; [reflexivity|].
  simpl. rewrite (H c) by (left; reflexivity). reflexivity.
Qed.

Lemma strip_no_space (cs : list N) : no_space cs -> strip cs = cs.
Proof.
  intros H. unfold strip. rewrite (lstrip_no_space H).
  rewrite lstrip_no_space, rev_involutive; [reflexivity|].
  intros c Hc. apply H, in_rev, Hc.
Qed.

Lemma is_digit_not_space (c : N) : is_digit c = true -> is_space c = false.
Proof.
  unfold is_digit, is_space. intros H.
  apply andb_true_iff in H. destruct H as [H1 H2].
  apply N.leb_le in H1. apply N.leb_le in H2. simpl.
  repeat match goal with
         | |- context [N.eqb c ?k] => destruct (N.eqb_spec c k); [lia|]
         end.
  reflexivity.
Qed.

Lemma all_digits_no_space (ds : list N) :
  forallb is_digit ds = true -> no_space ds.
Proof.
  intros H c Hc. apply is_digit_not_space.
  rewrite forallb_forall in H. apply H, Hc.
Qed.

Lemma no_space_cons (c : N) (cs : list N) :
  is_space c = false -> no_space cs -> no_space (c :: cs).
Proof. intros Hc H x [<-|Hx]; [assumption|apply H, Hx]. Qed.

Lemma no_space_app (xs ys : list N) :
  no_space xs -> no_space ys -> no_space (xs ++ ys).
Proof.
  intros Hx Hy c Hc. apply in_app_or in Hc. destruct Hc; auto.
Qed.

(** ** [Integer]: the decimal form and its reading *)

Lemma is_digit_not_sign (c : N) :
  is_digit c = true -> N.eqb c 45 = false /\ N.eqb c 43 = false.
Proof.
  unfold is_digit. intros H.
  apply andb_true_iff in H. destruct H as [H1 H2].
  apply N.leb_le in H1. apply N.leb_le in H2.
  split; apply N.eqb_neq; lia.
Qed.

Lemma parse_signed_digits (ds : list N) :
  forallb is_digit ds = true -> parse_signed ds = parse_unsigned ds.
Proof.
  destruct ds as [|c r]; [reflexivity|]. simpl forallb. intros H.
  apply andb_true_iff in H. destruct H as [Hc _].
  destruct (@is_digit_not_sign c Hc) as [H45 H43].
  unfold parse_signed. rewrite H45, H43. reflexivity.
Qed.

Lemma parse_signed_str_int (n : Z) : parse_signed (str_int n) = Ok n.
Proof.
  unfold str_int. destruct (Z.ltb_spec n 0) as [Hneg|Hpos].
  - unfold parse_signed. rewrite parse_unsigned_digits by lia.
    simpl. f_equal. lia.
  - rewrite parse_signed_digits by (apply all_digits_digits; assumption).
    apply parse_unsigned_digits. assumption.
Qed.

Lemma no_space_str_int (n : Z) : no_space (str_int n).
Proof.
  unfold str_int. destruct (Z.ltb_spec n 0).
  - apply no_space_cons; [reflexivity|].
    apply all_digits_no_space, all_digits_digits. lia.
  - apply all_digits_no_space, all_digits_digits. assumption.
Qed.

Lemma py_int_str_int (n : Z) : py_int (VText (PyStr (str_int n))) = Ok n.
Proof.
  simpl. rewrite strip_no_space by apply no_space_str_int.
  apply parse_signed_str_int.
Qed.

Lemma last_child_append (p c : element) :
  last_child (append_child p c) = Some c.
Proof.
  destruct p as [t a x cs]. unfold last_child. simpl.
  rewrite map_app. simpl. apply last_last.
Qed.

(** C5. Integer round-trip: for every integer [n], however large,
    [Integer.to_xml] writes the decimal form of [n], and [Integer.from_xml]
    applied to the element written returns [n]; the text written for
    [10**30] is a one followed by thirty zeros. *)
Theorem Integer_roundtrip :
  (forall n : Z,
      (exists parent e,
          Integer_to_xml Integer (VInt n) "tns" root "retval" = Ok parent
          /\ last_child parent = Some e
          /\ elt_text e = Some (PyStr (str_int n)))
      /\ roundtrip Integer_to_xml Integer_from_xml Integer (VInt n)
         = Ok (VInt n))
  /\ str_int (10 ^ 30) = codes "1000000000000000000000000000000".
Proof.
  split; [|reflexivity].
  intros n. split.
  - eexists. eexists. split; [reflexivity|]. split; reflexivity.
  - unfold roundtrip, Integer_to_xml, nillable_value, Integer_to_xml_body,
      string_to_xml. simpl bind.
    unfold Integer_from_xml, nillable_element, Integer_from_xml_body,
      text_of, elt_get.
    cbn [elt_attrib assoc_get elt_text].
    rewrite py_int_str_int. reflexivity.
Qed.

(** ** [Boolean.from_xml] *)

Lemma nillable_element_unmarked (f : class -> element -> result pyval)
    (cls : class) (e : element) :
  nil_marked e = false -> nillable_element f cls e = f cls e.
Proof.
  unfold nil_marked, nillable_element.
  destruct (elt_get e (qname _ns_xsi "nil")); [discriminate|reflexivity].
Qed.

Lemma nillable_element_marked (f : class -> element -> result pyval)
    (cls : class) (e : element) :
  nil_marked e = true -> nillable_element f cls e = Ok VNone.
Proof.
  unfold nil_marked, nillable_element.
  destruct (elt_get e (qname _ns_xsi "nil")); [reflexivity|discriminate].
Qed.

(** What [Boolean.from_xml] returns for a text, read off the source. *)
Lemma Boolean_from_xml_body_cases (cls : class) (e : element) :
  Boolean_from_xml_body cls e =
  match elt_text e with
  | None => Ok VNone
  | Some t =>
      match chars t with
      | [] => Ok (VText t)
      | c :: _ => Ok (VBool (N.eqb (lower_code c) (ch "t")))
      end
  end.
Proof.
  unfold Boolean_from_xml_body, text_of.
  destruct (elt_text e) as [t|]; [|reflexivity].
  unfold py_and, truthy, first_lower_is_t, index0.
  destruct t as [cs|cs]; destruct cs as [|c r]; reflexivity.
Qed.

(** C6, as the source has it.  [Boolean.from_xml] never fails; it returns
    [True] exactly when the element is not nil-marked, its text is present
    and the lowercased first character is [t]; a present, non-empty text
    with another first character gives [False]; an empty text is returned
    as it is and an absent text (or a nil-marked element) gives [None]:
    both are false in a truth test without being the boolean [False]. *)
Theorem Boolean_from_xml_total (cls : class) (e : element) :
  exists v,
    Boolean_from_xml cls e = Ok v
    /\ (v = VBool true <->
        nil_marked e = false
        /\ exists t c r, elt_text e = Some t /\ chars (lower t) = c :: r
                         /\ c = ch "t")
    /\ (v <> VBool true -> truthy v = false)
    /\ (nil_marked e = false ->
        match elt_text e with
        | None => v = VNone
        | Some t =>
            match chars t with
            | [] => v = VText t
            | c :: _ => v = VBool (N.eqb (lower_code c) (ch "t"))
            end
        end)
    /\ (nil_marked e = true -> v = VNone).
Proof.
  unfold Boolean_from_xml.
  destruct (nil_marked e) eqn:Hnil.
  - rewrite nillable_element_marked by assumption.
    exists VNone. split; [reflexivity|]. split; [|split; [|split]].
    + split; [discriminate|]. intros [H _]. discriminate.
    + reflexivity.
    + discriminate.
    + intros _. reflexivity.
  - rewrite nillable_element_unmarked, Boolean_from_xml_body_cases
      by assumption.
    destruct (elt_text e) as [t|].
    + assert (Hl : chars (lower t) = map lower_code (chars t))
        by (destruct t; reflexivity).
      destruct (chars t) as [|c r] eqn:Hc.
      * exists (VText t). split; [reflexivity|]. split; [|split; [|split]].
        -- split; [discriminate|].
           intros (_ & t' & c' & r' & Ht & Hc' & _).
           inversion Ht; subst t'. rewrite Hl in Hc'. discriminate.
        -- intros _. simpl. rewrite Hc. reflexivity.
        -- reflexivity.
        -- discriminate.
      * exists (VBool (N.eqb (lower_code c) (ch "t"))).
        split; [reflexivity|]. split; [|split; [|split]].
        -- split.
           ++ intros H. split; [reflexivity|].
              assert (H' : N.eqb (lower_code c) (ch "t") = true)
                by congruence.
              exists t, (lower_code c), (map lower_code r).
              split; [reflexivity|]. split; [exact Hl|].
              apply N.eqb_eq. exact H'.
           ++ intros (_ & t' & c' & r' & Ht & Hc' & Heq).
              inversion Ht; subst t'. rewrite Hl in Hc'.
              simpl in Hc'. injection Hc' as Hc1 _.
              rewrite Hc1, Heq. reflexivity.
        -- intros H.
           destruct (N.eqb (lower_code c) (ch "t")); [|reflexivity].
           exfalso. apply H. reflexivity.
        -- reflexivity.
        -- discriminate.
    + exists VNone. split; [reflexivity|]. split; [|split; [|split]].
      * split; [discriminate|].
        intros (_ & t & c & r & H & _). discriminate.
      * reflexivity.
      * reflexivity.
      * discriminate.
Qed.

(** C6, as stated, fails: for an element without text the call returns
    [None], not the boolean [False], and for an empty text it returns the
    empty text. *)
Lemma Boolean_from_xml_absent_text_not_False :
  Boolean_from_xml Boolean (Element "retval" [] None []) = Ok VNone
  /\ Boolean_from_xml Boolean (Element "retval" [] (Some (PyStr [])) [])
     = Ok (VText (PyStr []))
  /\ ~ (forall e, Boolean_from_xml Boolean e = Ok (VBool true)
                  \/ Boolean_from_xml Boolean e = Ok (VBool false)).
Proof.
  split; [reflexivity|]. split; [reflexivity|].
  intros H. destruct (H (Element "retval" [] None [])); discriminate.
Qed.


(** ** [String.from_xml] *)

Lemma utf8_ascii (cs : list N) : is_ascii cs = true -> flat_map utf8_char cs = cs.
Proof.
  induction cs as [|c r IH]; [reflexivity|].
  simpl. intros H. apply andb_true_iff in H. destruct H as [Hc Hr].
  unfold utf8_char at 1. rewrite Hc. simpl. f_equal. apply IH, Hr.
Qed.

(** What the body of [String.from_xml] returns, read off the source: the
    text as a [str] when it is pure ASCII, and the text object as it is
    otherwise. *)
Lemma String_from_xml_body_cases (cls : class) (e : element) :
  String_from_xml_body cls e =
  Ok (VText match elt_text e with
            | None => PyStr []
            | Some t =>
                match chars t with
                | [] => PyStr []
                | _ => if is_ascii (chars t) then PyStr (chars t) else t
                end
            end).
Proof.
  unfold String_from_xml_body, text_of.
  destruct (elt_text e) as [t|]; [|reflexivity].
  destruct t as [cs|cs]; destruct cs as [|c r]; try reflexivity.
  - unfold py_or, truthy, chars, py_str, str_text, encode_utf8.
    destruct (is_ascii (c :: r)) eqn:Ha; [|reflexivity].
    unfold bind, try_except. rewrite utf8_ascii by assumption. reflexivity.
  - unfold py_or, truthy, chars, py_str, str_text.
    destruct (is_ascii (c :: r)) eqn:Ha; [|reflexivity].
    unfold encode_utf8. rewrite Ha.
    unfold bind, try_except. rewrite utf8_ascii by assumption. reflexivity.
Qed.

(** C9. [String.from_xml] never raises: an absent text is read as the
    empty string, and a text on which the conversion to [str] or the
    encoding raises is returned as it is. *)
Theorem String_from_xml_never_raises (cls : class) (e : element) :
  (exists v, String_from_xml cls e = Ok v)
  /\ (nil_marked e = false -> elt_text e = None ->
      String_from_xml cls e = Ok (VText (PyStr [])))
  /\ (forall t,
         nil_marked e = false -> elt_text e = Some t -> chars t <> [] ->
         (raises (py_str (VText t)) = true
          \/ exists u, py_str (VText t) = Ok u
                       /\ raises (encode_utf8 u) = true) ->
         String_from_xml cls e = Ok (VText t)).
Proof.
  unfold String_from_xml. split; [|split].
  - destruct (nil_marked e) eqn:Hnil.
    + rewrite nillable_element_marked by assumption. eexists. reflexivity.
    + rewrite nillable_element_unmarked, String_from_xml_body_cases
        by assumption. eexists. reflexivity.
  - intros Hnil Ht.
    rewrite nillable_element_unmarked, String_from_xml_body_cases, Ht
      by assumption. reflexivity.
  - intros t Hnil Ht Hne Hfail.
    rewrite nillable_element_unmarked, String_from_xml_body_cases, Ht
      by assumption.
    destruct (chars t) as [|c r] eqn:Hc; [congruence|].
    destruct (is_ascii (c :: r)) eqn:Ha; [|reflexivity].
    exfalso. destruct t as [cs|cs]; simpl in Hc; subst cs.
    + destruct Hfail as [H|(u & Hu & H)]; [discriminate|].
      simpl in Hu. injection Hu as <-.
      unfold encode_utf8 in H. rewrite Ha in H. discriminate.
    + destruct Hfail as [H|(u & Hu & H)].
      * unfold py_str, str_text in H. rewrite Ha in H. discriminate.
      * unfold py_str, str_text in Hu. rewrite Ha in Hu. injection Hu as <-.
        unfold encode_utf8 in H. rewrite Ha in H. discriminate.
Qed.

(** A text with a character outside ASCII comes back unchanged. *)
Lemma String_from_xml_never_raises_witness :
  String_from_xml String
    (Element "retval" [] (Some (PyUnicode [99; 97; 102; 233]%N)) [])
  = Ok (VText (PyUnicode [99; 97; 102; 233]%N)).
Proof.
  apply (proj2 (proj2 (String_from_xml_never_raises String
           (Element "retval" [] (Some (PyUnicode [99; 97; 102; 233]%N)) [])))).
  - reflexivity.
  - reflexivity.
  - discriminate.
  - left. reflexivity.
Defined.

(** ** [String.add_to_schema] *)

Lemma update_nth_last {A} (f : A -> A) (l : list A) (x : A) :
  update_nth (List.length l) f (l ++ [x]) = l ++ [f x].
Proof. induction l as [|y l IH]; simpl; [reflexivity|]. now rewrite IH. Qed.

(** Appending through the restriction handed out last changes that
    restriction only. *)
Lemma SubElement_value_last (l : list (N * element)) (k : N) (t : string)
    (a : list (string * list N)) (x : option pytext) (r : element)
    (tag : string) (v : list N) :
  SubElement_value (mkschema (l ++ [(k, Element t a x [r])]))
                   (List.length l) tag v
  = mkschema (l ++ [(k, Element t a x
                          [append_child r
                             (Element tag [("value"%string, v)] None [])])]).
Proof. unfold SubElement_value. simpl. now rewrite update_nth_last. Qed.

Lemma emitted_SubElement_value (cls : class) (se se1 : schema_entries)
    (tag : string) (v : list N) :
  emitted cls se se1 ->
  emitted cls se
    (SubElement_value se1 (List.length (simple_types se)) tag v).
Proof.
  intros [r ->]. rewrite SubElement_value_last. eexists. reflexivity.
Qed.

Lemma emitted_has_class (cls : class) (se se1 : schema_entries) :
  emitted cls se se1 -> has_class se1 cls = true.
Proof.
  intros [r ->]. unfold has_class. simpl.
  rewrite existsb_app. simpl. rewrite N.eqb_refl.
  now rewrite orb_true_r.
Qed.

Lemma emitted_restrictions (cls : class) (se se1 : schema_entries) :
  emitted cls se se1 ->
  exists r, restrictions se1 = restrictions se ++ [r].
Proof.
  intros [r ->]. exists r. unfold restrictions. simpl.
  now rewrite flat_map_app.
Qed.

Lemma String_add_to_schema_emits (cls : class) (se : schema_entries) :
  String_is_default cls = false -> has_class se cls = false ->
  exists se1, String_add_to_schema cls se = Ok se1 /\ emitted cls se se1.
Proof.
  intros Hd Hc. unfold String_add_to_schema. rewrite Hd, Hc. simpl andb.
  cbv iota. unfold get_restriction_tag.
  set (se0 := mkschema _).
  assert (H0 : emitted cls se se0) by (eexists; reflexivity).
  clearbody se0.
  match goal with
  | |- exists _, (if _ then _ else Ok ?s) = _ /\ _ =>
      assert (H1 : emitted cls se s)
  end.
  { destruct (pylen_eqb (min_len (attrs cls)) (max_len (attrs cls))).
    - apply emitted_SubElement_value, H0.
    - destruct (negb (pylen_eqb (max_len (attrs cls)) _));
        destruct (negb (pylen_eqb (min_len (attrs cls)) _));
        repeat apply emitted_SubElement_value; exact H0. }
  destruct (opt_text_eqb (pattern (attrs cls)) (pattern String_Attributes))
    eqn:Hp; simpl negb; cbv iota.
  - eexists. split; [reflexivity|exact H1].
  - destruct (pattern (attrs cls)) as [p|]; [|discriminate].
    eexists. split; [reflexivity|].
    apply emitted_SubElement_value, H1.
Qed.

Lemma String_add_to_schema_registered (cls : class) (se : schema_entries) :
  has_class se cls = true -> String_add_to_schema cls se = Ok se.
Proof. intros H. unfold String_add_to_schema. now rewrite H. Qed.

(** C7. Emission is idempotent: for a bound type (one whose attributes are
    not all default) that the registry does not hold yet, the first call
    of [add_to_schema] adds exactly one restriction to the schema document
    and the second call, against the same registry, changes nothing. *)
Theorem String_add_to_schema_idempotent (cls : class) (se : schema_entries) :
  String_is_default cls = false -> has_class se cls = false ->
  exists se1 r,
    String_add_to_schema cls se = Ok se1
    /\ String_add_to_schema cls se1 = Ok se1
    /\ restrictions se1 = restrictions se ++ [r].
Proof.
  intros Hd Hc.
  destruct (String_add_to_schema_emits cls se Hd Hc) as (se1 & H1 & He).
  destruct (emitted_restrictions He) as [r Hr].
  exists se1, r. split; [exact H1|]. split; [|exact Hr].
  apply String_add_to_schema_registered, (emitted_has_class He).
Qed.

(** The bound type [Mandatory.String], emitted twice into a fresh
    registry, leaves one restriction. *)
Lemma String_add_to_schema_idempotent_witness :
  exists cls se1 r,
    Mandatory_String = Ok cls
    /\ String_add_to_schema cls fresh_schema = Ok se1
    /\ String_add_to_schema cls se1 = Ok se1
    /\ restrictions se1 = [r].
Proof.
  eexists.
  destruct (@String_add_to_schema_idempotent
              (SimpleType_new 100 String
                 (mkkwargs (Some false) (Some 1) None (Some (Len 1)) None None))
              fresh_schema eq_refl eq_refl)
    as (se1 & r & H1 & H2 & H3).
  exists se1, r. split; [reflexivity|]. split; [exact H1|].
  split; [exact H2|exact H3].
Defined.

(** C8. [String(max_len=10)] emitted into a fresh registry: one
    restriction, whose only facet is [maxLength] with value ["10"]; no
    [minLength] is written.  [String(10)] is the same bound type. *)
Theorem String_max_len_10_schema (new_id : N) :
  exists cls se r,
    String_new new_id String []
      (mkkwargs None None None None (Some (Len 10)) None) = Ok cls
    /\ String_new new_id String [Len 10] no_kwargs = Ok cls
    /\ String_add_to_schema cls fresh_schema = Ok se
    /\ restrictions se = [r]
    /\ facets r = [(qname _ns_xs "maxLength", Some (codes "10"))].
Proof.
  eexists. eexists. eexists.
  split; [reflexivity|]. split; [reflexivity|].
  split; [reflexivity|]. split; reflexivity.
Qed.

(** ** [Date]: writing and reading back *)

(** C1, on the source.  [Date.to_xml] writes the ISO form of the date, and
    [Date.from_xml] applied to the element written raises
    [AttributeError]: it calls [match] on [_date_pattern], which is the
    text of the pattern and has no such method.  No date is read back. *)
Theorem Date_roundtrip_raises :
  (forall d : date,
      (exists parent e,
          Date_to_xml Date (VDate d) "tns" root "retval" = Ok parent
          /\ last_child parent = Some e
          /\ elt_text e = Some (PyStr (date_isoformat d)))
      /\ roundtrip Date_to_xml Date_from_xml Date (VDate d)
         = Raise AttributeError)
  /\ date_isoformat (mkdate 2020 1 15) = codes "2020-01-15"
  /\ Date_from_xml Date (text_element "2020-01-15") = Raise AttributeError.
Proof.
  split; [|split; reflexivity].
  intros d. split.
  - eexists. eexists. split; [reflexivity|]. split; reflexivity.
  - reflexivity.
Qed.

(** ** [DateTime.from_xml]: the zone of an offset suffix *)

(** C3, on the source.  The hours of the offset are read with their sign
    and the minutes without it, and the two are added: [+05:30] gives 330
    minutes, but [-05:30] gives -270 minutes (not -330), and [-00:30]
    gives +30. *)
Theorem DateTime_offset_minutes :
  DateTime_from_xml DateTime (text_element "2020-01-15T10:30:00+05:30")
  = Ok (VDateTime (mkdatetime 2020 1 15 10 30 0 0 (Some (FixedOffsetTz 330))))
  /\ DateTime_from_xml DateTime (text_element "2020-01-15T10:30:00-05:30")
     = Ok (VDateTime
             (mkdatetime 2020 1 15 10 30 0 0 (Some (FixedOffsetTz (-270)))))
  /\ DateTime_from_xml DateTime (text_element "2020-01-15T10:30:00-00:30")
     = Ok (VDateTime
             (mkdatetime 2020 1 15 10 30 0 0 (Some (FixedOffsetTz 30)))).
Proof. repeat split; vm_compute; reflexivity. Qed.

(** ** [DateTime.from_xml]: the fraction of a second *)

Lemma all_from_spec (f : Z -> bool) (n : nat) :
  forall i, all_from f i n = true ->
            forall j, i <= j < i + Z.of_nat n -> f j = true.
Proof.
  induction n as [|n IH]; intros i H j Hj; [lia|].
  simpl in H. apply andb_true_iff in H. destruct H as [Hi Hrest].
  destruct (Z.eq_dec j i) as [->|Hne]; [exact Hi|].
  apply (IH (i + 1) Hrest). lia.
Qed.

Lemma tenths_exact : all_from (frac_exact 1) 0 10 = true.
Proof. vm_compute. reflexivity. Qed.

Lemma hundredths_exact : all_from (frac_exact 2) 0 100 = true.
Proof. vm_compute. reflexivity. Qed.

Lemma thousandths_exact : all_from (frac_exact 3) 0 1000 = true.
Proof. vm_compute. reflexivity. Qed.

Lemma frac_exact_upto_3 (k : nat) (n : Z) :
  (1 <= k <= 3)%nat -> 0 <= n < 10 ^ Z.of_nat k -> frac_exact k n = true.
Proof.
  intros Hk Hn.
  destruct k as [|[|[|[|k]]]]; try lia.
  - change (10 ^ Z.of_nat 1) with 10 in Hn.
    apply (@all_from_spec _ _ _ tenths_exact).
    change (Z.of_nat 10) with 10. lia.
  - change (10 ^ Z.of_nat 2) with 100 in Hn.
    apply (@all_from_spec _ _ _ hundredths_exact).
    change (Z.of_nat 100) with 100. lia.
  - change (10 ^ Z.of_nat 3) with 1000 in Hn.
    apply (@all_from_spec _ _ _ thousandths_exact).
    change (Z.of_nat 1000) with 1000. lia.
Qed.

Lemma whole_milliseconds_exact :
  all_from (fun n => usec_exact (n * 1000)) 0 1000 = true.
Proof. vm_compute. reflexivity. Qed.

(** X1.  A fraction of one to three digits is converted without loss: the
    result of [int(float(frac) * 10 ** 6)] is the number the digits stand
    for, in microseconds. *)
Theorem microsec_of_upto_3_digits (k : nat) (n : Z) :
  (1 <= k <= 3)%nat -> 0 <= n < 10 ^ Z.of_nat k ->
  microsec_of (frac_text (zfill k n)) = Ok (n * 10 ^ (6 - Z.of_nat k)).
Proof.
  intros Hk Hn. pose proof (@frac_exact_upto_3 k n Hk Hn) as H.
  unfold frac_exact in H.
  destruct (microsec_of (frac_text (zfill k n))) as [r|]; [|discriminate].
  apply Z.eqb_eq in H. subst r. reflexivity.
Qed.

Lemma microsec_of_upto_3_digits_witness :
  microsec_of (frac_text (zfill 3 123)) = Ok (123 * 10 ^ (6 - Z.of_nat 3)).
Proof.
  apply (@microsec_of_upto_3_digits 3 123).
  - lia.
  - simpl. lia.
Defined.

(** X2.  The six digits that [isoformat] writes for a whole number of
    milliseconds are converted without loss. *)
Theorem microsec_of_whole_milliseconds (ms : Z) :
  0 <= ms < 1000 ->
  microsec_of (frac_text (zfill 6 (ms * 1000))) = Ok (ms * 1000).
Proof.
  intros Hms.
  assert (H : usec_exact (ms * 1000) = true).
  { apply (@all_from_spec (fun n => usec_exact (n * 1000)) _ _
             whole_milliseconds_exact).
    change (Z.of_nat 1000) with 1000. lia. }
  unfold usec_exact in H.
  destruct (microsec_of (frac_text (zfill 6 (ms * 1000)))) as [r|];
    [|discriminate].
  apply Z.eqb_eq in H. subst r. reflexivity.
Qed.

Lemma microsec_of_whole_milliseconds_witness :
  microsec_of (frac_text (zfill 6 (123 * 1000))) = Ok (123 * 1000).
Proof. apply (@microsec_of_whole_milliseconds 123). lia. Defined.

(** ** [Boolean]: writing and reading back *)

Lemma Boolean_body_roundtrip (cls : class) (v : pyval) :
  roundtrip Boolean_to_xml_body Boolean_from_xml cls v
  = Ok (VBool (truthy v)).
Proof.
  unfold roundtrip, Boolean_to_xml_body.
  destruct (truthy v); reflexivity.
Qed.

(** X3.  Whatever value is written by [Boolean.to_xml], [Boolean.from_xml]
    reads from the element written the truth value of it, as a boolean;
    the value [None] is read back as [None] when the type is nillable. *)
Theorem Boolean_roundtrip (cls : class) (v : pyval) :
  roundtrip Boolean_to_xml Boolean_from_xml cls v
  = Ok (match v with
        | VNone => if nillable (attrs cls) then VNone else VBool false
        | _ => VBool (truthy v)
        end).
Proof.
  destruct v;
    try (match goal with
         | |- roundtrip _ _ _ ?x = _ => exact (Boolean_body_roundtrip cls x)
         end).
  unfold roundtrip, Boolean_to_xml, nillable_value.
  destruct (nillable (attrs cls)); reflexivity.
Qed.

(** ** [String.add_to_schema]: the facets written *)

Lemma String_add_to_schema_facets (cls : class) (se : schema_entries) :
  String_is_default cls = false -> has_class se cls = false ->
  exists se1 r,
    String_add_to_schema cls se = Ok se1
    /\ simple_types se1
       = simple_types se
           ++ [(cls_id cls, Element (qname ns_xsd "simpleType") [] None [r])]
    /\ facets r = map read_facet (string_facets (attrs cls)).
Proof.
  intros Hd Hc. unfold String_add_to_schema. rewrite Hd, Hc. simpl andb.
  cbv iota. unfold get_restriction_tag, string_facets.
  change (min_len String_Attributes) with (Len 0).
  change (max_len String_Attributes) with unbounded.
  change (pattern String_Attributes) with (@None (list N)).
  destruct se as [l]. cbn [simple_types].
  destruct (pylen_eqb (min_len (attrs cls)) (max_len (attrs cls)));
    [|destruct (pylen_eqb (min_len (attrs cls)) (Len 0));
      destruct (pylen_eqb (max_len (attrs cls)) unbounded)];
    destruct (pattern (attrs cls)) as [p|];
    cbn [negb opt_text_eqb];
    repeat rewrite SubElement_value_last;
    (eexists; eexists; split; [reflexivity|]; split; reflexivity).
Qed.

Lemma restrictions_snoc (l : list (N * element)) (k : N) (t : string)
    (r : element) :
  restrictions (mkschema (l ++ [(k, Element t [] None [r])]))
  = restrictions (mkschema l) ++ [r].
Proof. unfold restrictions. simpl. now rewrite flat_map_app. Qed.

Lemma restrictions_of_simple_types (se se1 : schema_entries) (k : N)
    (t : string) (r : element) :
  simple_types se1 = simple_types se ++ [(k, Element t [] None [r])] ->
  restrictions se1 = restrictions se ++ [r].
Proof.
  destruct se as [l], se1 as [l1]. simpl. intros ->.
  apply restrictions_snoc.
Qed.

(** X4.  The restriction that [String.add_to_schema] writes for a bound type
    not yet registered: it is added after the restrictions already in the
    document and holds, in this order, a [length] facet when the two
    bounds are equal and otherwise a [minLength] facet when the lower
    bound is not 0 and a [maxLength] facet when the upper bound is not
    ["unbounded"], and then a [pattern] facet when a pattern is set. *)
Theorem String_add_to_schema_writes (cls : class) (se : schema_entries) :
  String_is_default cls = false -> has_class se cls = false ->
  exists se1 r,
    String_add_to_schema cls se = Ok se1
    /\ restrictions se1 = restrictions se ++ [r]
    /\ facets r = map read_facet (string_facets (attrs cls)).
Proof.
  intros Hd Hc.
  destruct (String_add_to_schema_facets cls se Hd Hc)
    as (se1 & r & H1 & H2 & H3).
  exists se1, r. split; [exact H1|]. split; [|exact H3].
  exact (@restrictions_of_simple_types _ _ _ _ _ H2).
Qed.

(** [Mandatory.String] written into a fresh registry: one restriction
    with the single facet [minLength] of value ["1"]. *)
Lemma String_add_to_schema_writes_witness :
  exists se1 r,
    String_add_to_schema
      (SimpleType_new 100 String
         (mkkwargs (Some false) (Some 1) None (Some (Len 1)) None None))
      fresh_schema = Ok se1
    /\ restrictions se1 = [r]
    /\ facets r = [(qname _ns_xs "minLength", Some (codes "1"))].
Proof.
  exact (@String_add_to_schema_writes
           (SimpleType_new 100 String
              (mkkwargs (Some false) (Some 1) None (Some (Len 1)) None None))
           fresh_schema eq_refl eq_refl).
Defined.

(** X5.  [String.add_to_schema] leaves the registry as it found it exactly when
    the type is already registered or all its attributes are default. *)
Theorem String_add_to_schema_unchanged_iff (cls : class)
    (se : schema_entries) :
  String_add_to_schema cls se = Ok se
  <-> has_class se cls = true \/ String_is_default cls = true.
Proof.
  split.
  - intros H.
    destruct (has_class se cls) eqn:Hc; [left; reflexivity|].
    destruct (String_is_default cls) eqn:Hd; [right; reflexivity|].
    exfalso.
    destruct (String_add_to_schema_facets cls se Hd Hc)
      as (se1 & r & H1 & H2 & _).
    rewrite H in H1. injection H1 as <-.
    apply (f_equal (@List.length _)) in H2.
    rewrite length_app in H2. simpl in H2. lia.
  - intros [H|H]; unfold String_add_to_schema; rewrite H;
      [reflexivity|].
    now rewrite andb_false_r.
Qed.

(** X6.  The bound type [String(n)]: the single positional argument is the
    upper bound, the type is never default, and the restriction written
    for it holds one facet, [maxLength] with the decimal form of [n], or
    [length] when [n] is 0 (the lower bound being 0 too).  More than one
    positional argument is refused. *)
Theorem String_of_max_len (new_id : N) (n : Z) :
  exists cls se r,
    String_new new_id String [Len n] no_kwargs = Ok cls
    /\ max_len (attrs cls) = Len n
    /\ String_is_default cls = false
    /\ String_add_to_schema cls fresh_schema = Ok se
    /\ restrictions se = [r]
    /\ facets r
       = [(qname _ns_xs (if n =? 0 then "length" else "maxLength"),
           Some (str_int n))].
Proof.
  set (cls := SimpleType_new new_id String
                (mkkwargs None None None None (Some (Len n)) None)).
  assert (Hd : String_is_default cls = false).
  { unfold String_is_default. now rewrite andb_false_r. }
  destruct (@String_add_to_schema_writes cls fresh_schema Hd eq_refl)
    as (se & r & H1 & H2 & H3).
  exists cls, se, r.
  split; [reflexivity|]. split; [reflexivity|]. split; [exact Hd|].
  split; [exact H1|]. split; [exact H2|].
  rewrite H3. unfold string_facets, cls. destruct n; reflexivity.
Qed.

Lemma String_new_too_many_arguments (new_id : N) (cls : class)
    (a b : pylen) (rest : list pylen) (kw : kwargs) :
  String_new new_id cls (a :: b :: rest) kw = Raise AssertionError.
Proof. reflexivity. Qed.

Lemma has_class_snoc (se se1 : schema_entries) (k : N) (e : element)
    (cls : class) :
  simple_types se1 = simple_types se ++ [(k, e)] ->
  has_class se1 cls = has_class se cls || N.eqb k (cls_id cls).
Proof.
  unfold has_class. intros ->. rewrite existsb_app. simpl.
  now rewrite orb_false_r.
Qed.

(** X7.  Two bound types written one after the other: each gets a restriction
    of its own, in the order of the calls; writing the second leaves the
    restriction of the first as it was; and after that either call
    changes nothing. *)
Theorem String_add_to_schema_two_types (cls1 cls2 : class)
    (se : schema_entries) :
  String_is_default cls1 = false -> String_is_default cls2 = false ->
  has_class se cls1 = false -> has_class se cls2 = false ->
  cls_id cls1 <> cls_id cls2 ->
  exists se1 se2 r1 r2,
    String_add_to_schema cls1 se = Ok se1
    /\ String_add_to_schema cls2 se1 = Ok se2
    /\ restrictions se1 = restrictions se ++ [r1]
    /\ restrictions se2 = restrictions se ++ [r1; r2]
    /\ facets r1 = map read_facet (string_facets (attrs cls1))
    /\ facets r2 = map read_facet (string_facets (attrs cls2))
    /\ String_add_to_schema cls1 se2 = Ok se2
    /\ String_add_to_schema cls2 se2 = Ok se2.
Proof.
  intros Hd1 Hd2 Hc1 Hc2 Hne.
  destruct (String_add_to_schema_facets cls1 se Hd1 Hc1)
    as (se1 & r1 & H1 & S1 & F1).
  assert (Hc2' : has_class se1 cls2 = false).
  { rewrite (@has_class_snoc _ _ _ _ cls2 S1), Hc2. simpl.
    apply N.eqb_neq. exact Hne. }
  destruct (String_add_to_schema_facets cls2 se1 Hd2 Hc2')
    as (se2 & r2 & H2 & S2 & F2).
  exists se1, se2, r1, r2.
  split; [exact H1|]. split; [exact H2|].
  pose proof (@restrictions_of_simple_types _ _ _ _ _ S1) as R1.
  pose proof (@restrictions_of_simple_types _ _ _ _ _ S2) as R2.
  split; [exact R1|].
  split; [rewrite R2, R1, <- app_assoc; reflexivity|].
  split; [exact F1|]. split; [exact F2|].
  split; apply String_add_to_schema_registered.
  - rewrite (@has_class_snoc _ _ _ _ cls1 S2), (@has_class_snoc _ _ _ _ cls1 S1).
    rewrite N.eqb_refl. now rewrite orb_true_r.
  - rewrite (@has_class_snoc _ _ _ _ cls2 S2), N.eqb_refl.
    now rewrite orb_true_r.
Qed.

(** [String(10)] and [Mandatory.String] written into a fresh registry. *)
Lemma String_add_to_schema_two_types_witness :
  exists se1 se2 r1 r2,
    String_add_to_schema
      (SimpleType_new 101 String
         (mkkwargs None None None None (Some (Len 10)) None))
      fresh_schema = Ok se1
    /\ String_add_to_schema
         (SimpleType_new 100 String
            (mkkwargs (Some false) (Some 1) None (Some (Len 1)) None None))
         se1 = Ok se2
    /\ restrictions se1 = [r1]
    /\ restrictions se2 = [r1; r2]
    /\ facets r1 = [(qname _ns_xs "maxLength", Some (codes "10"))]
    /\ facets r2 = [(qname _ns_xs "minLength", Some (codes "1"))].
Proof.
  destruct (@String_add_to_schema_two_types
              (SimpleType_new 101 String
                 (mkkwargs None None None None (Some (Len 10)) None))
              (SimpleType_new 100 String
                 (mkkwargs (Some false) (Some 1) None (Some (Len 1)) None
                    None))
              fresh_schema eq_refl eq_refl eq_refl eq_refl
              ltac:(discriminate))
    as (se1 & se2 & r1 & r2 & H1 & H2 & H3 & H4 & H5 & H6 & _).
  exists se1, se2, r1, r2.
  repeat (split; [assumption|]). assumption.
Defined.

(** ** [String.to_xml] and the round trip of texts *)

Lemma utf8_decode_ascii (bs : list N) :
  is_ascii bs = true -> utf8_decode bs = Ok bs.
Proof.
  induction bs as [|b r IH]; [reflexivity|].
  simpl. intros H. apply andb_true_iff in H. destruct H as [Hb Hr].
  rewrite Hb, (IH Hr). reflexivity.
Qed.

Lemma utf8_decode_1 (b : N) (r : list N) :
  (b < 128)%N ->
  utf8_decode (b :: r) = (cs <- utf8_decode r ;; Ok (b :: cs)).
Proof.
  intros H. cbn [utf8_decode].
  destruct (N.ltb_spec b 128); [reflexivity|lia].
Qed.

Lemma utf8_decode_2 (b c1 : N) (r : list N) :
  (194 <= b < 224)%N -> (128 <= c1 < 192)%N ->
  utf8_decode (b :: c1 :: r)
  = (cs <- utf8_decode r ;; Ok (((b - 192) * 64 + (c1 - 128))%N :: cs)).
Proof.
  intros Hb H1. cbn [utf8_decode]. unfold is_cont.
  destruct (N.ltb_spec b 128); [lia|].
  destruct (N.leb_spec 194 b); [|lia].
  destruct (N.ltb_spec b 224); [|lia].
  destruct (N.leb_spec 128 c1); [|lia].
  destruct (N.ltb_spec c1 192); [|lia].
  reflexivity.
Qed.

Lemma utf8_decode_3 (b c1 c2 : N) (r : list N) :
  (224 <= b < 240)%N -> (128 <= c1 < 192)%N -> (128 <= c2 < 192)%N ->
  (2048 <= (b - 224) * 4096 + (c1 - 128) * 64 + (c2 - 128))%N ->
  utf8_decode (b :: c1 :: c2 :: r)
  = (cs <- utf8_decode r ;;
     Ok (((b - 224) * 4096 + (c1 - 128) * 64 + (c2 - 128))%N :: cs)).
Proof.
  intros Hb H1 H2 Hcp. cbn [utf8_decode]. unfold is_cont.
  destruct (N.ltb_spec b 128); [lia|].
  destruct (N.leb_spec 194 b); [|lia].
  destruct (N.ltb_spec b 224); [lia|].
  destruct (N.leb_spec 224 b); [|lia].
  destruct (N.ltb_spec b 240); [|lia].
  destruct (N.leb_spec 128 c1); [|lia].
  destruct (N.ltb_spec c1 192); [|lia].
  destruct (N.leb_spec 128 c2); [|lia].
  destruct (N.ltb_spec c2 192); [|lia].
  cbn [andb].
  destruct (N.leb_spec 2048
              ((b - 224) * 4096 + (c1 - 128) * 64 + (c2 - 128))); [|lia].
  reflexivity.
Qed.

Lemma utf8_decode_4 (b c1 c2 c3 : N) (r : list N) :
  (240 <= b < 245)%N -> (128 <= c1 < 192)%N -> (128 <= c2 < 192)%N ->
  (128 <= c3 < 192)%N ->
  (65536 <= (b - 240) * 262144 + (c1 - 128) * 4096 + (c2 - 128) * 64
            + (c3 - 128) < 1114112)%N ->
  utf8_decode (b :: c1 :: c2 :: c3 :: r)
  = (cs <- utf8_decode r ;;
     Ok (((b - 240) * 262144 + (c1 - 128) * 4096 + (c2 - 128) * 64
          + (c3 - 128))%N :: cs)).
Proof.
  intros Hb H1 H2 H3 Hcp. cbn [utf8_decode]. unfold is_cont.
  destruct (N.ltb_spec b 128); [lia|].
  destruct (N.leb_spec 194 b); [|lia].
  destruct (N.ltb_spec b 224); [lia|].
  destruct (N.leb_spec 224 b); [|lia].
  destruct (N.ltb_spec b 240); [lia|].
  destruct (N.leb_spec 240 b); [|lia].
  destruct (N.ltb_spec b 245); [|lia].
  destruct (N.leb_spec 128 c1); [|lia].
  destruct (N.ltb_spec c1 192); [|lia].
  destruct (N.leb_spec 128 c2); [|lia].
  destruct (N.ltb_spec c2 192); [|lia].
  destruct (N.leb_spec 128 c3); [|lia].
  destruct (N.ltb_spec c3 192); [|lia].
  cbn [andb].
  match goal with
  | |- context [N.leb 65536 ?x] =>
      destruct (N.leb_spec 65536 x); [|lia];
      destruct (N.ltb_spec x 1114112); [|lia]
  end.
  reflexivity.
Qed.

Lemma div_mod_64 (c : N) :
  (c = 64 * (c / 64) + c mod 64 /\ c mod 64 < 64)%N.
Proof.
  split; [apply N.div_mod; discriminate|apply N.mod_lt; discriminate].
Qed.

(** Decoding undoes encoding, one code point at a time. *)
Lemma utf8_decode_app_char (c : N) (r : list N) :
  (c <? 1114112)%N = true ->
  utf8_decode (utf8_char c ++ r) = (cs <- utf8_decode r ;; Ok (c :: cs)).
Proof.
  intros Hc. apply N.ltb_lt in Hc. unfold utf8_char.
  destruct (N.ltb_spec c 128) as [H1|H1].
  { apply utf8_decode_1. exact H1. }
  replace (c / 4096)%N with (c / 64 / 64)%N
    by (rewrite N.Div0.div_div; reflexivity).
  replace (c / 262144)%N with (c / 64 / 64 / 64)%N
    by (rewrite !N.Div0.div_div; reflexivity).
  destruct (div_mod_64 c) as [E0 M0].
  destruct (div_mod_64 (c / 64)) as [E1 M1].
  destruct (div_mod_64 (c / 64 / 64)) as [E2 M2].
  revert E0 M0 E1 M1 E2 M2.
  generalize (c mod 64)%N ((c / 64) mod 64)%N ((c / 64 / 64) mod 64)%N.
  generalize (c / 64 / 64 / 64)%N.
  generalize (c / 64 / 64)%N.
  generalize (c / 64)%N.
  intros q1 q2 q3 m0 m1 m2 E0 M0 E1 M1 E2 M2.
  destruct (N.ltb_spec c 2048) as [H2|H2].
  { cbn [app]. rewrite utf8_decode_2 by lia.
    replace ((192 + q1 - 192) * 64 + (128 + m0 - 128))%N with c by lia.
    reflexivity. }
  destruct (N.ltb_spec c 65536) as [H3|H3].
  { cbn [app]. rewrite utf8_decode_3 by lia.
    replace ((224 + q2 - 224) * 4096 + (128 + m1 - 128) * 64
             + (128 + m0 - 128))%N with c by lia.
    reflexivity. }
  cbn [app]. rewrite utf8_decode_4 by lia.
  replace ((240 + q3 - 240) * 262144 + (128 + m2 - 128) * 4096
           + (128 + m1 - 128) * 64 + (128 + m0 - 128))%N with c by lia.
  reflexivity.
Qed.

Lemma utf8_decode_encode (cs : list N) :
  valid_codepoints cs = true -> utf8_decode (flat_map utf8_char cs) = Ok cs.
Proof.
  induction cs as [|c r IH]; [reflexivity|].
  simpl. intros H. apply andb_true_iff in H. destruct H as [Hc Hr].
  rewrite utf8_decode_app_char by exact Hc.
  rewrite (IH Hr). reflexivity.
Qed.

Lemma String_from_xml_written (cls : class) (tag : string) (cs : list N) :
  String_from_xml cls (Element tag [] (Some (PyUnicode cs)) [])
  = Ok (VText (if is_ascii cs then PyStr cs else PyUnicode cs)).
Proof.
  unfold String_from_xml.
  rewrite nillable_element_unmarked by reflexivity.
  rewrite String_from_xml_body_cases. cbn [elt_text chars].
  destruct cs as [|c r]; reflexivity.
Qed.

(** X8.  String round trip (and [AnyUri], which has the same methods).  A
    [unicode] value, or a [str] value holding the UTF-8 form of some code
    points, is read back from the element written by [String.to_xml] as a
    text of the same characters: a [str] when they are all ASCII, and a
    [unicode] object otherwise (so a non-ASCII [str] comes back as
    [unicode]). *)
Theorem String_roundtrip (cls : class) (t : pytext) (cs : list N) :
  t = PyUnicode cs
  \/ (t = PyStr (flat_map utf8_char cs) /\ valid_codepoints cs = true) ->
  roundtrip String_to_xml String_from_xml cls (VText t)
  = Ok (VText (if is_ascii cs then PyStr cs else PyUnicode cs)).
Proof.
  intros [->|[-> Hv]]; unfold roundtrip, String_to_xml, nillable_value,
    String_to_xml_body, string_to_xml.
  - cbn [isinstance_unicode negb bind append_child root last_child
         getchildren app map last].
    apply String_from_xml_written.
  - cbn [isinstance_unicode negb py_unicode_utf8].
    rewrite utf8_decode_encode by exact Hv.
    cbn [bind append_child root last_child getchildren app map last].
    apply String_from_xml_written.
Qed.

Lemma String_roundtrip_witness :
  roundtrip String_to_xml String_from_xml AnyUri
    (VText (PyStr [99; 97; 102; 195; 169]%N))
  = Ok (VText (PyUnicode [99; 97; 102; 233]%N)).
Proof.
  apply (@String_roundtrip AnyUri (PyStr [99; 97; 102; 195; 169]%N)
           [99; 97; 102; 233]%N).
  right. split; reflexivity.
Defined.

(** [String.to_xml] does not convert its value to a text: a value that is
    neither a text nor [None] raises [TypeError], and nothing is written. *)
Theorem String_to_xml_not_text (cls : class) (v : pyval) (tns : string)
    (parent_elt : element) (name : string) :
  (forall t, v <> VText t) -> v <> VNone ->
  String_to_xml cls v tns parent_elt name = Raise TypeError.
Proof.
  intros Ht Hn. unfold String_to_xml, nillable_value, String_to_xml_body.
  destruct v as [|b|z|t|d|t]; try reflexivity.
  - congruence.
  - exfalso. apply (Ht t). reflexivity.
Qed.

Lemma String_to_xml_not_text_witness :
  String_to_xml String (VInt 5) "tns" root "retval" = Raise TypeError.
Proof.
  apply (@String_to_xml_not_text String (VInt 5)).
  - discriminate.
  - discriminate.
Defined.

(** A [str] value that is not valid UTF-8 is refused by [String.to_xml]
    with the decoder's error, and nothing is written. *)
Theorem String_to_xml_bad_utf8 (cls : class) (bs : list N) (e : exn)
    (tns : string) (parent_elt : element) (name : string) :
  utf8_decode bs = Raise e ->
  String_to_xml cls (VText (PyStr bs)) tns parent_elt name = Raise e.
Proof.
  intros H. unfold String_to_xml, nillable_value, String_to_xml_body.
  cbn [isinstance_unicode negb py_unicode_utf8]. rewrite H. reflexivity.
Qed.

Lemma String_to_xml_bad_utf8_witness :
  String_to_xml String (VText (PyStr [99; 97; 102; 233]%N)) "tns" root "retval"
  = Raise UnicodeDecodeError.
Proof.
  apply (@String_to_xml_bad_utf8 String [99; 97; 102; 233]%N).
  reflexivity.
Defined.

Unset Implicit Arguments.

(** ** Matching: how the patterns of the module run on a text *)

Lemma _local_re_eq : _local_re = datetime_re Eps.
Proof. reflexivity. Qed.

Lemma _utc_re_eq : _utc_re = datetime_re utc_tail.
Proof. reflexivity. Qed.

Lemma _offset_re_eq : _offset_re = datetime_re offset_tail.
Proof. reflexivity. Qed.

Lemma consumed_app (p rest : list N) : consumed (p ++ rest) rest = p.
Proof.
  unfold consumed. rewrite length_app.
  replace (List.length p + List.length rest - List.length rest)%nat
    with (List.length p) by lia.
  rewrite firstn_app, Nat.sub_diag, firstn_all. simpl. apply app_nil_r.
Qed.

Lemma rmatch_seq_one (r1 r2 : regex) (s rest : list N) (caps caps' : captures) :
  rmatch r1 s caps = [(rest, caps')] ->
  rmatch (Seq r1 r2) s caps = rmatch r2 rest caps'.
Proof. intros H. simpl. rewrite H. simpl. apply app_nil_r. Qed.

Lemma rmatch_seq_none (r1 r2 : regex) (s : list N) (caps : captures) :
  rmatch r1 s caps = [] -> rmatch (Seq r1 r2) s caps = [].
Proof. intros H. simpl. rewrite H. reflexivity. Qed.

Lemma rmatch_repeat_digits (ds rest : list N) (caps : captures) :
  forallb is_digit ds = true ->
  rmatch (Repeat (List.length ds) (Atom Digit)) (ds ++ rest) caps
  = [(rest, caps)].
Proof.
  induction ds as [|d r IH]; [reflexivity|].
  intros H. simpl in H. apply andb_true_iff in H. destruct H as [Hd Hr].
  specialize (IH Hr). simpl in *. rewrite Hd. simpl. rewrite IH. reflexivity.
Qed.

Lemma rmatch_digits_group (name : string) (ds rest : list N)
    (caps : captures) :
  forallb is_digit ds = true ->
  rmatch (digits_group name (List.length ds)) (ds ++ rest) caps
  = [(rest, (name, ds) :: caps)].
Proof.
  intros H. unfold digits_group.
  change (rmatch (Group name ?r) ?s ?c)
    with (map (fun m => (fst m, (name, consumed s (fst m)) :: snd m))
              (rmatch r s c)).
  rewrite (rmatch_seq_one _ Eps _ _ _ _ (rmatch_repeat_digits ds rest caps H)).
  simpl. rewrite consumed_app. reflexivity.
Qed.

Lemma rmatch_char (c : N) (rest : list N) (caps : captures) :
  rmatch (Atom (Char c)) (c :: rest) caps = [(rest, caps)].
Proof. simpl. rewrite N.eqb_refl. reflexivity. Qed.

Lemma length_zfill (w : nat) : forall n, List.length (zfill w n) = w.
Proof.
  induction w as [|w IH]; intros n; [reflexivity|].
  simpl. rewrite length_app, IH. simpl. lia.
Qed.

Lemma all_digits_zfill (w : nat) :
  forall n, forallb is_digit (zfill w n) = true.
Proof.
  induction w as [|w IH]; intros n; [reflexivity|].
  simpl. rewrite forallb_app, IH. simpl.
  rewrite is_digit_digit_code; [reflexivity|].
  apply Z.mod_pos_bound. lia.
Qed.

Lemma atoi_zfill (w : nat) :
  forall n, 0 <= n < 10 ^ Z.of_nat w -> atoi (zfill w n) = n.
Proof.
  induction w as [|w IH]; intros n Hn.
  - simpl in Hn. assert (n = 0) by lia. subst. reflexivity.
  - simpl zfill. rewrite atoi_snoc, digit_val_digit_code
      by (apply Z.mod_pos_bound; lia).
    rewrite IH.
    + pose proof (Z.div_mod n 10). lia.
    + rewrite Nat2Z.inj_succ, Z.pow_succ_r in Hn by lia.
      split; [apply Z.div_pos; lia|].
      apply Z.div_lt_upper_bound; lia.
Qed.

Lemma rmatch_seq_zfill (name : string) (w : nat) (n : Z) (r2 : regex)
    (rest : list N) (caps : captures) :
  rmatch (Seq (digits_group name w) r2) (zfill w n ++ rest) caps
  = rmatch r2 rest ((name, zfill w n) :: caps).
Proof.
  apply rmatch_seq_one.
  rewrite <- (length_zfill w n) at 1.
  apply rmatch_digits_group, all_digits_zfill.
Qed.

Lemma rmatch_seq_char (c : N) (r2 : regex) (rest : list N) (caps : captures) :
  rmatch (Seq (Atom (Char c)) r2) (c :: rest) caps = rmatch r2 rest caps.
Proof. apply rmatch_seq_one, rmatch_char. Qed.

Lemma rmatch_seq_sep (sep : N) (r2 : regex) (rest : list N)
    (caps : captures) :
  sep = 84%N \/ sep = 32%N ->
  rmatch (Seq (Atom (OneOf [84; 32]%N)) r2) (sep :: rest) caps
  = rmatch r2 rest caps.
Proof.
  intros H. apply rmatch_seq_one. destruct H as [-> | ->]; reflexivity.
Qed.

(** The date and time part of a text written by [isoformat] is matched by
    [_datetime_pattern] in one way, which sets the six groups. *)
Lemma rmatch_datetime_re (tail : regex) (y mo d : Z) (sep : N) (h mi s : Z)
    (rest : list N) (caps : captures) :
  sep = 84%N \/ sep = 32%N ->
  rmatch (datetime_re tail)
    (zfill 4 y ++ [ch "-"] ++ zfill 2 mo ++ [ch "-"] ++ zfill 2 d ++ [sep]
       ++ zfill 2 h ++ [ch ":"] ++ zfill 2 mi ++ [ch ":"] ++ zfill 2 s
       ++ rest) caps
  = rmatch (Seq (Opt frac_group) tail) rest
      (("sec"%string, zfill 2 s) :: ("min"%string, zfill 2 mi)
         :: ("hr"%string, zfill 2 h) :: ("day"%string, zfill 2 d)
         :: ("month"%string, zfill 2 mo) :: ("year"%string, zfill 4 y)
         :: caps).
Proof.
  intros Hsep. unfold datetime_re.
  change (ch "-") with 45%N. change (ch ":") with 58%N.
  rewrite rmatch_seq_zfill. cbn [app]. rewrite rmatch_seq_char.
  rewrite rmatch_seq_zfill. cbn [app]. rewrite rmatch_seq_char.
  rewrite rmatch_seq_zfill. cbn [app]. rewrite rmatch_seq_sep by exact Hsep.
  rewrite rmatch_seq_zfill. cbn [app]. rewrite rmatch_seq_char.
  rewrite rmatch_seq_zfill. cbn [app]. rewrite rmatch_seq_char.
  rewrite rmatch_seq_zfill. reflexivity.
Qed.

Lemma rmatch_seq_opt (r tail : regex) (s : list N) (caps : captures) :
  rmatch (Seq (Opt r) tail) s caps
  = flat_map (fun m => rmatch tail (fst m) (snd m)) (rmatch r s caps)
      ++ rmatch tail s caps.
Proof.
  change (rmatch (Seq (Opt r) tail) s caps)
    with (flat_map (fun m => rmatch tail (fst m) (snd m))
            (rmatch r s caps ++ [(s, caps)])).
  rewrite flat_map_app. simpl. now rewrite app_nil_r.
Qed.

Lemma rmatch_frac_group_point (u : list N) (caps : captures) :
  rmatch frac_group (46%N :: u) caps
  = map (fun rest =>
           (rest, ("sec_frac"%string, consumed (46%N :: u) rest) :: caps))
        (match_plus Digit u).
Proof.
  unfold frac_group.
  change (rmatch (Group ?name ?r) ?s ?c)
    with (map (fun m => (fst m, (name, consumed s (fst m)) :: snd m))
              (rmatch r s c)).
  rewrite rmatch_seq_char.
  change (rmatch (Seq (Plus Digit) Eps) u caps)
    with (flat_map (fun m => [(fst m, snd m)])
            (map (fun rest => (rest, caps)) (match_plus Digit u))).
  induction (match_plus Digit u) as [|x l IH]; [reflexivity|].
  simpl. f_equal. exact IH.
Qed.

Lemma rmatch_frac_group_no_point (s : list N) (caps : captures) :
  first_in (Char 46) s = false -> rmatch frac_group s caps = [].
Proof.
  intros H. unfold frac_group.
  change (rmatch (Group ?name ?r) ?s ?c)
    with (map (fun m => (fst m, (name, consumed s (fst m)) :: snd m))
              (rmatch r s c)).
  rewrite rmatch_seq_none; [reflexivity|].
  destruct s as [|c r]; [reflexivity|]. simpl in *. now rewrite H.
Qed.

(** Without a point next, the fraction group is skipped. *)
Lemma rmatch_no_fraction (tail : regex) (s : list N) (caps : captures) :
  first_in (Char 46) s = false ->
  rmatch (Seq (Opt frac_group) tail) s caps = rmatch tail s caps.
Proof.
  intros H. rewrite rmatch_seq_opt, rmatch_frac_group_no_point by exact H.
  reflexivity.
Qed.

(** [\d+] on a run of digits followed by something else: the whole run
    first, then the shorter ones, each leaving a digit next. *)
Lemma match_plus_digits (ds rest : list N) :
  ds <> [] -> forallb is_digit ds = true -> first_in Digit rest = false ->
  exists l,
    match_plus Digit (ds ++ rest) = rest :: l
    /\ Forall (fun t => first_in Digit t = true) l.
Proof.
  induction ds as [|d r IH]; [congruence|].
  intros _ H Hrest. simpl in H. apply andb_true_iff in H.
  destruct H as [Hd Hr]. simpl. rewrite Hd.
  destruct r as [|d' r'].
  - exists []. split; [|constructor]. simpl.
    destruct rest as [|c t]; [reflexivity|].
    simpl in Hrest. simpl. rewrite Hrest. reflexivity.
  - destruct (IH ltac:(discriminate) Hr Hrest) as (l & Hl & Hall).
    rewrite Hl. exists (l ++ [(d' :: r') ++ rest]). split; [reflexivity|].
    apply Forall_app. split; [exact Hall|].
    constructor; [|constructor]. simpl in Hr |- *.
    apply andb_true_iff in Hr. apply Hr.
Qed.

Lemma flat_map_nil {A B} (f : A -> list B) (l : list A) :
  Forall (fun x => f x = []) l -> flat_map f l = [].
Proof.
  induction 1 as [|x l Hx _ IH]; [reflexivity|].
  simpl. now rewrite Hx, IH.
Qed.

(** With a point and digits next, the fraction group takes them all; the
    shorter ways are tried after that, and come to nothing when the rest
    of the pattern cannot start at a digit or at a point. *)
Lemma rmatch_fraction (tail : regex) (ds rest : list N) (caps : captures) :
  ds <> [] -> forallb is_digit ds = true -> first_in Digit rest = false ->
  exists l,
    rmatch (Seq (Opt frac_group) tail) (46%N :: ds ++ rest) caps
    = rmatch tail rest (("sec_frac"%string, 46%N :: ds) :: caps) ++ l
    /\ (rejects_fraction tail -> l = []).
Proof.
  intros Hne Hd Hrest.
  destruct (match_plus_digits ds rest Hne Hd Hrest) as (l & Hl & Hall).
  rewrite rmatch_seq_opt, rmatch_frac_group_point, Hl.
  cbn [map flat_map fst snd].
  change (46%N :: ds ++ rest) with ((46%N :: ds) ++ rest) at 1.
  rewrite consumed_app. rewrite <- app_assoc.
  eexists. split; [reflexivity|].
  intros Hrej. rewrite Hrej by (right; reflexivity).
  rewrite app_nil_r. clear Hl.
  induction Hall as [|t l' Ht _ IH]; [reflexivity|].
  cbn [map flat_map fst snd]. rewrite IH, app_nil_r.
  apply Hrej. left. exact Ht.
Qed.

Lemma digit_neq (c k : N) :
  is_digit c = true -> is_digit k = false -> N.eqb c k = false.
Proof.
  intros Hc Hk. apply N.eqb_neq. intros ->. congruence.
Qed.

Lemma rejects_fraction_utc_tail : rejects_fraction utc_tail.
Proof.
  intros s caps H. unfold utc_tail. apply rmatch_seq_none.
  destruct s as [|c r]; [reflexivity|]. simpl in *.
  destruct H as [H|H].
  - rewrite (digit_neq c 90 H eq_refl). reflexivity.
  - apply N.eqb_eq in H. subst c. reflexivity.
Qed.

Lemma rejects_fraction_offset_tail : rejects_fraction offset_tail.
Proof.
  intros s caps H. unfold offset_tail. apply rmatch_seq_none.
  change (rmatch (Group ?name ?r) ?s ?c)
    with (map (fun m => (fst m, (name, consumed s (fst m)) :: snd m))
              (rmatch r s c)).
  rewrite rmatch_seq_none; [reflexivity|].
  destruct s as [|c r]; [reflexivity|]. simpl in *.
  destruct H as [H|H].
  - rewrite (digit_neq c 43 H eq_refl), (digit_neq c 45 H eq_refl).
    reflexivity.
  - apply N.eqb_eq in H. subst c. reflexivity.
Qed.

Lemma rmatch_utc_tail_none (s : list N) (caps : captures) :
  first_in (Char 90) s = false -> rmatch utc_tail s caps = [].
Proof.
  intros H. unfold utc_tail. apply rmatch_seq_none.
  destruct s as [|c r]; [reflexivity|]. simpl in *. now rewrite H.
Qed.

Lemma rmatch_offset_tail_nil (caps : captures) :
  rmatch offset_tail [] caps = [].
Proof. reflexivity. Qed.

(** The sign character of an offset suffix. *)
Lemma rmatch_offset_tail (sign : N) (hh mm : Z) (caps : captures) :
  sign = 43%N \/ sign = 45%N ->
  rmatch offset_tail (sign :: zfill 2 hh ++ [ch ":"] ++ zfill 2 mm) caps
  = [([], ("tz_min"%string, zfill 2 mm)
            :: ("tz_hr"%string, sign :: zfill 2 hh) :: caps)].
Proof.
  intros Hs. unfold offset_tail.
  assert (H1 : rmatch (Group "tz_hr"
                         (Seq (Atom (OneOf [43; 45]%N))
                              (Seq (Repeat 2 (Atom Digit)) Eps)))
                 (sign :: zfill 2 hh ++ [ch ":"] ++ zfill 2 mm) caps
               = [([ch ":"] ++ zfill 2 mm,
                   ("tz_hr"%string, sign :: zfill 2 hh) :: caps)]).
  { change (rmatch (Group ?name ?r) ?s ?c)
      with (map (fun m => (fst m, (name, consumed s (fst m)) :: snd m))
                (rmatch r s c)).
    assert (H0 : rmatch (Atom (OneOf [43; 45]%N))
                   (sign :: zfill 2 hh ++ [ch ":"] ++ zfill 2 mm) caps
                 = [(zfill 2 hh ++ [ch ":"] ++ zfill 2 mm, caps)])
      by (destruct Hs as [-> | ->]; reflexivity).
    rewrite (rmatch_seq_one _ _ _ _ _ _ H0).
    pose proof (rmatch_repeat_digits (zfill 2 hh) ([ch ":"] ++ zfill 2 mm)
                  caps (all_digits_zfill 2 hh)) as H2.
    rewrite length_zfill in H2.
    rewrite (rmatch_seq_one _ _ _ _ _ _ H2).
    cbn [rmatch map fst snd].
    change (sign :: zfill 2 hh ++ [ch ":"] ++ zfill 2 mm)
      with ((sign :: zfill 2 hh) ++ [ch ":"] ++ zfill 2 mm).
    rewrite consumed_app. reflexivity. }
  rewrite (rmatch_seq_one _ _ _ _ _ _ H1).
  change (ch ":") with 58%N. cbn [app]. rewrite rmatch_seq_char.
  rewrite <- (app_nil_r (zfill 2 mm)) at 1.
  rewrite rmatch_seq_zfill. reflexivity.
Qed.

(** ** Reading the groups of a match *)

Lemma assoc_get_map_names (f : string -> pyval) (names : list string)
    (name : string) :
  existsb (String.eqb name) names = true ->
  assoc_get name (map (fun n => (n, f n)) names) = Some (f name).
Proof.
  induction names as [|n r IH]; [discriminate|].
  simpl. destruct (String.eqb_spec name n) as [->|Hne]; [reflexivity|].
  simpl. exact IH.
Qed.

Lemma int_field_groupdict (names : list string) (groups : captures)
    (name : string) (cs : list N) :
  existsb (String.eqb name) names = true ->
  assoc_get name groups = Some cs ->
  int_field (groupdict (mkmatch names groups false) (VInt 0)) name
  = py_int (VText (PyStr cs)).
Proof.
  intros Hin Hg. unfold int_field, dict_item, groupdict.
  cbn [m_names m_groups m_unicode].
  rewrite (assoc_get_map_names
             (fun n => match assoc_get n groups with
                       | Some cs => VText (like false cs)
                       | None => VInt 0
                       end) names name Hin).
  rewrite Hg. reflexivity.
Qed.

Lemma dict_get_groupdict (names : list string) (groups : captures)
    (name : string) :
  existsb (String.eqb name) names = true ->
  dict_get (groupdict (mkmatch names groups false) (VInt 0)) name (VInt 0)
  = match assoc_get name groups with
    | Some cs => VText (PyStr cs)
    | None => VInt 0
    end.
Proof.
  intros Hin. unfold dict_get, groupdict.
  cbn [m_names m_groups m_unicode].
  rewrite (assoc_get_map_names
             (fun n => match assoc_get n groups with
                       | Some cs => VText (like false cs)
                       | None => VInt 0
                       end) names name Hin).
  reflexivity.
Qed.

Lemma py_int_zfill (w : nat) (n : Z) :
  (1 <= w)%nat -> 0 <= n < 10 ^ Z.of_nat w ->
  py_int (VText (PyStr (zfill w n))) = Ok n.
Proof.
  intros Hw Hn. unfold py_int, chars.
  rewrite strip_no_space
    by (apply all_digits_no_space, all_digits_zfill).
  rewrite parse_signed_digits by apply all_digits_zfill.
  unfold parse_unsigned.
  pose proof (length_zfill w n) as Hl.
  destruct (zfill w n) as [|c r] eqn:E; [simpl in Hl; lia|].
  rewrite <- E, all_digits_zfill, atoi_zfill by exact Hn. reflexivity.
Qed.

(** The fields of a text written by [isoformat], read from the groups of
    a match: what [parse_date] of [DateTime.from_xml] computes. *)
Lemma parse_datetime_groups (names : list string) (groups : captures)
    (y mo d h mi s : Z) (tz : option tzinfo) :
  existsb (String.eqb "year") names = true ->
  existsb (String.eqb "month") names = true ->
  existsb (String.eqb "day") names = true ->
  existsb (String.eqb "hr") names = true ->
  existsb (String.eqb "min") names = true ->
  existsb (String.eqb "sec") names = true ->
  existsb (String.eqb "sec_frac") names = true ->
  assoc_get "year"%string groups = Some (zfill 4 y) ->
  assoc_get "month"%string groups = Some (zfill 2 mo) ->
  assoc_get "day"%string groups = Some (zfill 2 d) ->
  assoc_get "hr"%string groups = Some (zfill 2 h) ->
  assoc_get "min"%string groups = Some (zfill 2 mi) ->
  assoc_get "sec"%string groups = Some (zfill 2 s) ->
  0 <= y < 10000 -> 0 <= mo < 100 -> 0 <= d < 100 ->
  0 <= h < 100 -> 0 <= mi < 100 -> 0 <= s < 100 ->
  parse_datetime (mkmatch names groups false) tz
  = (us <- microsec_of match assoc_get "sec_frac"%string groups with
                       | Some cs => VText (PyStr cs)
                       | None => VInt 0
                       end ;;
     t <- datetime_datetime y mo d h mi s us tz ;;
     Ok (VDateTime t)).
Proof.
  intros N1 N2 N3 N4 N5 N6 N7 G1 G2 G3 G4 G5 G6 Hy Hmo Hd Hh Hmi Hs.
  unfold parse_datetime.
  rewrite (int_field_groupdict names groups "year" _ N1 G1).
  rewrite (int_field_groupdict names groups "month" _ N2 G2).
  rewrite (int_field_groupdict names groups "day" _ N3 G3).
  rewrite (int_field_groupdict names groups "hr" _ N4 G4).
  rewrite (int_field_groupdict names groups "min" _ N5 G5).
  rewrite (int_field_groupdict names groups "sec" _ N6 G6).
  rewrite (dict_get_groupdict names groups "sec_frac" N7).
  rewrite (py_int_zfill 4 y) by (simpl; lia).
  rewrite !(py_int_zfill 2) by (simpl; lia).
  reflexivity.
Qed.

(** ** [DateTime]: writing and reading back *)

Lemma datetime_isoformat_parts (sep : N) (t : datetime) :
  datetime_isoformat sep t
  = zfill 4 (dt_year t) ++ [ch "-"] ++ zfill 2 (dt_month t) ++ [ch "-"]
      ++ zfill 2 (dt_day t) ++ [sep]
      ++ zfill 2 (dt_hour t) ++ [ch ":"] ++ zfill 2 (dt_minute t) ++ [ch ":"]
      ++ zfill 2 (dt_second t)
      ++ (frac_part (dt_microsecond t) ++ zone_part (dt_tzinfo t)).
Proof. reflexivity. Qed.

Lemma first_in_zone_part (tz : option tzinfo) (k : charset) :
  in_charset k 43 = false -> in_charset k 45 = false ->
  first_in k (zone_part tz) = false.
Proof.
  intros H43 H45. destruct tz as [z|]; [|reflexivity].
  unfold zone_part, format_utcoffset.
  destruct (utcoffset z <? 0); simpl; assumption.
Qed.

(** After the date and time part, the rest of a text written by
    [isoformat]: the fraction group takes the fraction, if there is one,
    and the rest of the pattern goes on at the zone suffix. *)
Lemma rmatch_after_stamp (tail : regex) (us : Z) (tz : option tzinfo)
    (caps : captures) :
  exists l,
    rmatch (Seq (Opt frac_group) tail) (frac_part us ++ zone_part tz) caps
    = rmatch tail (zone_part tz) (frac_caps us caps) ++ l
    /\ (rejects_fraction tail -> l = []).
Proof.
  unfold frac_part, frac_caps. destruct (us =? 0).
  - exists []. split; [|reflexivity]. rewrite app_nil_r. cbn [app].
    apply rmatch_no_fraction.
    apply first_in_zone_part; reflexivity.
  - change (ch ".") with 46%N. cbn [app].
    apply rmatch_fraction.
    + pose proof (length_zfill 6 us) as H.
      intros E. rewrite E in H. discriminate.
    + apply all_digits_zfill.
    + apply first_in_zone_part; reflexivity.
Qed.

Lemma iso_utc_no_match (t : datetime) :
  rmatch _utc_re (datetime_isoformat (ch "T") t) [] = [].
Proof.
  rewrite _utc_re_eq, datetime_isoformat_parts.
  rewrite rmatch_datetime_re by (left; reflexivity).
  destruct (rmatch_after_stamp utc_tail (dt_microsecond t) (dt_tzinfo t)
              (stamp_caps t)) as (l & Hl & Hnil).
  unfold stamp_caps in Hl. rewrite Hl.
  rewrite (Hnil rejects_fraction_utc_tail), app_nil_r.
  apply rmatch_utc_tail_none.
  apply first_in_zone_part; reflexivity.
Qed.

Lemma iso_offset_no_match (t : datetime) :
  dt_tzinfo t = None ->
  rmatch _offset_re (datetime_isoformat (ch "T") t) [] = [].
Proof.
  intros Hz. rewrite _offset_re_eq, datetime_isoformat_parts.
  rewrite rmatch_datetime_re by (left; reflexivity).
  destruct (rmatch_after_stamp offset_tail (dt_microsecond t) (dt_tzinfo t)
              (stamp_caps t)) as (l & Hl & Hnil).
  unfold stamp_caps in Hl. rewrite Hl.
  rewrite (Hnil rejects_fraction_offset_tail), app_nil_r.
  rewrite Hz. reflexivity.
Qed.

Lemma iso_offset_match (t : datetime) (z : tzinfo) :
  dt_tzinfo t = Some z ->
  rmatch _offset_re (datetime_isoformat (ch "T") t) []
  = [([], ("tz_min"%string, zfill 2 (Z.abs (utcoffset z) mod 60))
            :: ("tz_hr"%string,
                (if utcoffset z <? 0 then ch "-" else ch "+")
                  :: zfill 2 (Z.abs (utcoffset z) / 60))
            :: frac_caps (dt_microsecond t) (stamp_caps t))].
Proof.
  intros Hz. rewrite _offset_re_eq, datetime_isoformat_parts.
  rewrite rmatch_datetime_re by (left; reflexivity).
  destruct (rmatch_after_stamp offset_tail (dt_microsecond t) (dt_tzinfo t)
              (stamp_caps t)) as (l & Hl & Hnil).
  unfold stamp_caps in Hl. rewrite Hl.
  rewrite (Hnil rejects_fraction_offset_tail), app_nil_r.
  rewrite Hz. unfold zone_part, format_utcoffset.
  apply rmatch_offset_tail.
  destruct (utcoffset z <? 0); [right|left]; reflexivity.
Qed.

Lemma iso_local_match (t : datetime) :
  dt_tzinfo t = None ->
  exists l,
    rmatch _local_re (datetime_isoformat (ch "T") t) []
    = ([], frac_caps (dt_microsecond t) (stamp_caps t)) :: l.
Proof.
  intros Hz. rewrite _local_re_eq, datetime_isoformat_parts.
  rewrite rmatch_datetime_re by (left; reflexivity).
  destruct (rmatch_after_stamp Eps (dt_microsecond t) (dt_tzinfo t)
              (stamp_caps t)) as (l & Hl & _).
  unfold stamp_caps in Hl. rewrite Hl, Hz.
  exists l. reflexivity.
Qed.

Lemma assoc_get_frac_caps (us : Z) (caps : captures) (name : string) :
  String.eqb name "sec_frac" = false ->
  assoc_get name (frac_caps us caps) = assoc_get name caps.
Proof.
  intros H. unfold frac_caps. destruct (us =? 0); [reflexivity|].
  simpl. rewrite H. reflexivity.
Qed.

Lemma microsec_of_frac_caps (t : datetime) :
  usec_survives (dt_microsecond t) = true ->
  microsec_of match assoc_get "sec_frac"%string
                      (frac_caps (dt_microsecond t) (stamp_caps t)) with
              | Some cs => VText (PyStr cs)
              | None => VInt 0
              end
  = Ok (dt_microsecond t).
Proof.
  unfold usec_survives, frac_caps. intros H.
  destruct (Z.eqb_spec (dt_microsecond t) 0) as [E|E].
  - rewrite E. vm_compute. reflexivity.
  - simpl in H. cbn [assoc_get String.eqb Ascii.eqb Bool.eqb andb].
    unfold usec_exact, frac_text in H.
    destruct (microsec_of (VText (PyStr (ch "." :: zfill 6 (dt_microsecond t)))))
      as [r|]; [|discriminate].
    apply Z.eqb_eq in H. subst r. reflexivity.
Qed.

Lemma valid_datetime_ranges (t : datetime) :
  valid_datetime t = true ->
  0 <= dt_year t < 10000 /\ 0 <= dt_month t < 100 /\ 0 <= dt_day t < 100
  /\ 0 <= dt_hour t < 100 /\ 0 <= dt_minute t < 100
  /\ 0 <= dt_second t < 100.
Proof.
  unfold valid_datetime, valid_date, valid_time, between, days_in_month.
  intros H.
  repeat (apply andb_true_iff in H; destruct H as [H ?]).
  repeat match goal with
         | H : (_ <=? _) = true |- _ => apply Z.leb_le in H
         end.
  assert (dt_day t <= 31).
  { destruct (dt_month t =? 2);
      [destruct (is_leap (dt_year t)); lia|].
    destruct ((dt_month t =? 4) || (dt_month t =? 6) || (dt_month t =? 9)
              || (dt_month t =? 11)); lia. }
  lia.
Qed.

Lemma assoc_get_app_none {V} (name : string) (l1 l2 : list (string * V)) :
  assoc_get name l1 = None -> assoc_get name (l1 ++ l2) = assoc_get name l2.
Proof.
  induction l1 as [|[k v] r IH]; [reflexivity|].
  simpl. destruct (String.eqb name k); [discriminate|]. exact IH.
Qed.

(** The groups set by either pattern carry the date and time fields. *)
Lemma parse_datetime_iso (names : list string) (extra : captures)
    (t : datetime) (tz : option tzinfo) :
  (forall name, In name datetime_groups ->
                existsb (String.eqb name) names = true
                /\ assoc_get name extra = None) ->
  valid_datetime t = true ->
  usec_survives (dt_microsecond t) = true ->
  parse_datetime
    (mkmatch names (extra ++ frac_caps (dt_microsecond t) (stamp_caps t))
       false) tz
  = Ok (VDateTime (mkdatetime (dt_year t) (dt_month t) (dt_day t)
                     (dt_hour t) (dt_minute t) (dt_second t)
                     (dt_microsecond t) tz)).
Proof.
  intros Hx Hv Hus.
  destruct (valid_datetime_ranges t Hv) as (Hy & Hmo & Hd & Hh & Hmi & Hs).
  assert (G : forall name, In name datetime_groups ->
             assoc_get name
               (extra ++ frac_caps (dt_microsecond t) (stamp_caps t))
             = assoc_get name (frac_caps (dt_microsecond t) (stamp_caps t))).
  { intros name Hin. apply assoc_get_app_none, Hx, Hin. }
  assert (I : forall k, (k < 7)%nat ->
                In (nth k datetime_groups ""%string) datetime_groups).
  { intros k Hk. apply nth_In. exact Hk. }
  rewrite (parse_datetime_groups names _ (dt_year t) (dt_month t)
             (dt_day t) (dt_hour t) (dt_minute t) (dt_second t) tz);
    try assumption.
  - rewrite (G "sec_frac"%string (I 6%nat ltac:(lia))).
    rewrite (microsec_of_frac_caps t Hus).
    unfold datetime_datetime, bind. unfold valid_datetime in Hv.
    rewrite Hv. reflexivity.
  - apply (Hx "year"%string (I 0%nat ltac:(lia))).
  - apply (Hx "month"%string (I 1%nat ltac:(lia))).
  - apply (Hx "day"%string (I 2%nat ltac:(lia))).
  - apply (Hx "hr"%string (I 3%nat ltac:(lia))).
  - apply (Hx "min"%string (I 4%nat ltac:(lia))).
  - apply (Hx "sec"%string (I 5%nat ltac:(lia))).
  - apply (Hx "sec_frac"%string (I 6%nat ltac:(lia))).
  - rewrite (G "year"%string (I 0%nat ltac:(lia))), assoc_get_frac_caps
      by reflexivity. reflexivity.
  - rewrite (G "month"%string (I 1%nat ltac:(lia))), assoc_get_frac_caps
      by reflexivity. reflexivity.
  - rewrite (G "day"%string (I 2%nat ltac:(lia))), assoc_get_frac_caps
      by reflexivity. reflexivity.
  - rewrite (G "hr"%string (I 3%nat ltac:(lia))), assoc_get_frac_caps
      by reflexivity. reflexivity.
  - rewrite (G "min"%string (I 4%nat ltac:(lia))), assoc_get_frac_caps
      by reflexivity. reflexivity.
  - rewrite (G "sec"%string (I 5%nat ltac:(lia))), assoc_get_frac_caps
      by reflexivity. reflexivity.
Qed.

Lemma int_group_tz_hr (a b : list N) (rest : captures) :
  int_group (mkmatch (group_names _offset_re)
               (("tz_min"%string, a) :: ("tz_hr"%string, b) :: rest) false)
    "tz_hr"
  = py_int (VText (PyStr b)).
Proof. reflexivity. Qed.

Lemma int_group_tz_min (a b : list N) (rest : captures) :
  int_group (mkmatch (group_names _offset_re)
               (("tz_min"%string, a) :: ("tz_hr"%string, b) :: rest) false)
    "tz_min"
  = py_int (VText (PyStr a)).
Proof. reflexivity. Qed.

(** [int] of a sign and two digits. *)
Lemma py_int_signed (neg : bool) (n : Z) :
  0 <= n < 100 ->
  py_int (VText (PyStr ((if neg then ch "-" else ch "+") :: zfill 2 n)))
  = Ok (if neg then - n else n).
Proof.
  intros Hn. unfold py_int, chars.
  rewrite strip_no_space.
  2:{ apply no_space_cons; [destruct neg; reflexivity|].
      apply all_digits_no_space, all_digits_zfill. }
  assert (Hp : parse_unsigned (zfill 2 n) = Ok n).
  { pose proof (py_int_zfill 2 n ltac:(lia) ltac:(simpl; lia)) as H.
    unfold py_int, chars in H.
    rewrite strip_no_space in H
      by (apply all_digits_no_space, all_digits_zfill).
    rewrite parse_signed_digits in H by apply all_digits_zfill.
    exact H. }
  destruct neg; unfold parse_signed.
  - change (N.eqb (ch "-") 45) with true. cbv iota.
    rewrite Hp. reflexivity.
  - change (N.eqb (ch "+") 45) with false.
    change (N.eqb (ch "+") 43) with true. cbv iota. exact Hp.
Qed.

(** The zone that [DateTime.from_xml] builds from the suffix written for
    a zone [z]: the hours are read with the sign, the minutes without. *)
Lemma offset_read_back (z : tzinfo) :
  zone_survives (Some z) = true ->
  FixedOffset ((if utcoffset z <? 0 then - (Z.abs (utcoffset z) / 60)
                else Z.abs (utcoffset z) / 60) * 60
               + Z.abs (utcoffset z) mod 60)
  = Ok z.
Proof.
  destruct z as [|m]; [reflexivity|].
  unfold zone_survives, utcoffset. intros H.
  apply andb_true_iff in H. destruct H as [H Hs].
  apply andb_true_iff in H. destruct H as [Hnz Hlt].
  apply negb_true_iff, Z.eqb_neq in Hnz. apply Z.ltb_lt in Hlt.
  assert (E : (if m <? 0 then - (Z.abs m / 60) else Z.abs m / 60) * 60
              + Z.abs m mod 60 = m).
  { destruct (Z.ltb_spec m 0) as [Hneg|Hpos].
    - apply orb_true_iff in Hs. destruct Hs as [Hs|Hs];
        [apply Z.ltb_lt in Hs; lia|].
      apply Z.eqb_eq in Hs.
      assert (Hm : Z.abs m mod 60 = 0).
      { rewrite Z.abs_neq by lia.
        apply Z.mod_divide; [lia|]. apply Z.divide_opp_r.
        apply Z.mod_divide; [lia|exact Hs]. }
      pose proof (Z.div_mod (Z.abs m) 60 ltac:(lia)). lia.
    - pose proof (Z.div_mod (Z.abs m) 60 ltac:(lia)). lia. }
  rewrite E. unfold FixedOffset.
  destruct (Z.eqb_spec m 0); [contradiction|].
  destruct (Z.leb_spec 1440 (Z.abs m)); [lia|]. reflexivity.
Qed.

Lemma zone_offset_ranges (z : tzinfo) :
  zone_survives (Some z) = true ->
  0 <= Z.abs (utcoffset z) / 60 < 100 /\ 0 <= Z.abs (utcoffset z) mod 60 < 100.
Proof.
  intros H.
  assert (Hlt : Z.abs (utcoffset z) < 1440).
  { destruct z as [|m]; [simpl; lia|].
    unfold zone_survives in H.
    apply andb_true_iff in H. destruct H as [H _].
    apply andb_true_iff in H. destruct H as [_ H].
    apply Z.ltb_lt in H. exact H. }
  pose proof (Z.abs_nonneg (utcoffset z)).
  pose proof (Z.mod_pos_bound (Z.abs (utcoffset z)) 60 ltac:(lia)).
  split; [|lia].
  split; [apply Z.div_pos; lia|].
  apply Z.div_lt_upper_bound; lia.
Qed.

Lemma datetime_eta (t : datetime) :
  mkdatetime (dt_year t) (dt_month t) (dt_day t) (dt_hour t) (dt_minute t)
    (dt_second t) (dt_microsecond t) (dt_tzinfo t) = t.
Proof. destruct t; reflexivity. Qed.

Lemma datetime_groups_in_local (name : string) :
  In name datetime_groups ->
  existsb (String.eqb name) (group_names _local_re) = true
  /\ assoc_get name (@nil (string * list N)) = None.
Proof.
  intros H. simpl in H.
  repeat (destruct H as [<-|H]; [split; reflexivity|]). contradiction.
Qed.

Lemma datetime_groups_in_offset (name : string) (a b : list N) :
  In name datetime_groups ->
  existsb (String.eqb name) (group_names _offset_re) = true
  /\ assoc_get name [("tz_min"%string, a); ("tz_hr"%string, b)] = None.
Proof.
  intros H. simpl in H.
  repeat (destruct H as [<-|H]; [split; reflexivity|]). contradiction.
Qed.

Lemma offset_ranges (z : tzinfo) :
  Z.abs (utcoffset z) < 1440 ->
  0 <= Z.abs (utcoffset z) / 60 < 100
  /\ 0 <= Z.abs (utcoffset z) mod 60 < 10 ^ Z.of_nat 2.
Proof.
  intros Hlt.
  pose proof (Z.abs_nonneg (utcoffset z)).
  pose proof (Z.mod_pos_bound (Z.abs (utcoffset z)) 60 ltac:(lia)).
  split; [|change (10 ^ Z.of_nat 2) with 100; lia].
  split; [apply Z.div_pos; lia|].
  apply Z.div_lt_upper_bound; lia.
Qed.

(** What [DateTime.from_xml] reads from an element holding the text that
    [isoformat] writes for a datetime with a zone. *)
Lemma DateTime_from_xml_iso_zone (cls : class) (tag : string) (t : datetime)
    (z : tzinfo) :
  valid_datetime t = true ->
  usec_survives (dt_microsecond t) = true ->
  dt_tzinfo t = Some z -> Z.abs (utcoffset z) < 1440 ->
  DateTime_from_xml cls
    (Element tag [] (Some (PyStr (datetime_isoformat (ch "T") t))) [])
  = (tz <- zone_read_back z ;; Ok (VDateTime (replace_tzinfo t (Some tz)))).
Proof.
  intros Hv Hus Ez Hz.
  unfold DateTime_from_xml.
  rewrite nillable_element_unmarked by reflexivity.
  unfold DateTime_from_xml_body, text_of. cbn [elt_text].
  unfold re_match at 1. cbn [chars]. rewrite iso_utc_no_match. cbn [bind].
  unfold re_match at 1. cbn [chars].
  rewrite (iso_offset_match t z Ez). cbn [bind snd is_unicode].
  rewrite int_group_tz_hr, int_group_tz_min.
  destruct (offset_ranges z Hz) as [Hh Hm].
  rewrite (py_int_signed (utcoffset z <? 0) _ Hh).
  rewrite (py_int_zfill 2 (Z.abs (utcoffset z) mod 60) ltac:(lia) Hm).
  cbn [bind]. unfold zone_read_back.
  destruct (FixedOffset _) as [tz|e]; [|reflexivity]. cbn [bind].
  match goal with
  | |- parse_datetime (mkmatch ?names (?a :: ?b :: ?rest) false) ?tz = ?rhs =>
      change (parse_datetime (mkmatch names ([a; b] ++ rest) false) tz = rhs)
  end.
  rewrite parse_datetime_iso; try assumption.
  - reflexivity.
  - intros name Hin. apply datetime_groups_in_offset, Hin.
Qed.

(** The same for a datetime without zone. *)
Lemma DateTime_from_xml_iso_naive (cls : class) (tag : string)
    (t : datetime) :
  valid_datetime t = true ->
  usec_survives (dt_microsecond t) = true ->
  dt_tzinfo t = None ->
  DateTime_from_xml cls
    (Element tag [] (Some (PyStr (datetime_isoformat (ch "T") t))) [])
  = Ok (VDateTime t).
Proof.
  intros Hv Hus Ez.
  unfold DateTime_from_xml.
  rewrite nillable_element_unmarked by reflexivity.
  unfold DateTime_from_xml_body, text_of. cbn [elt_text].
  unfold re_match at 1. cbn [chars]. rewrite iso_utc_no_match. cbn [bind].
  unfold re_match at 1. cbn [chars].
  rewrite (iso_offset_no_match t Ez). cbn [bind].
  unfold re_match. cbn [chars].
  destruct (iso_local_match t Ez) as (l & Hl). rewrite Hl.
  cbn [bind snd is_unicode].
  change (frac_caps (dt_microsecond t) (stamp_caps t))
    with ([] ++ frac_caps (dt_microsecond t) (stamp_caps t)).
  rewrite parse_datetime_iso; try assumption.
  - rewrite <- Ez. rewrite datetime_eta. reflexivity.
  - intros name Hin. apply datetime_groups_in_local, Hin.
Qed.

Lemma roundtrip_DateTime (cls : class) (t : datetime) :
  roundtrip DateTime_to_xml DateTime_from_xml cls (VDateTime t)
  = DateTime_from_xml cls
      (Element (qname "tns" "retval") []
         (Some (PyStr (datetime_isoformat (ch "T") t))) []).
Proof. reflexivity. Qed.

Lemma usec_survives_milliseconds (us : Z) :
  0 <= us < 1000000 -> us mod 1000 = 0 -> usec_survives us = true.
Proof.
  intros Hr Hm. unfold usec_survives. apply orb_true_iff. right.
  pose proof (Z.div_mod us 1000 ltac:(lia)) as E.
  rewrite Hm, Z.add_0_r, Z.mul_comm in E.
  assert (Hq : 0 <= us / 1000 < 1000)
    by (split; [apply Z.div_pos; lia|apply Z.div_lt_upper_bound; lia]).
  pose proof (@microsec_of_whole_milliseconds (us / 1000) Hq) as H.
  rewrite <- E in H. unfold usec_exact. rewrite H.
  apply Z.eqb_refl.
Qed.

(** X9.  DateTime round trip.  A datetime that the constructor accepts, whose
    microsecond is a whole number of milliseconds (or any other value
    that the conversion through [float] brings back) and whose zone is
    absent, UTC, or a fixed offset of less than a day that is positive or
    a whole number of hours, is read back by [DateTime.from_xml] from the
    element that [DateTime.to_xml] writes, with the same fields and the
    same zone. *)
Theorem DateTime_roundtrip (cls : class) (t : datetime) :
  valid_datetime t = true ->
  dt_microsecond t mod 1000 = 0 \/ usec_survives (dt_microsecond t) = true ->
  zone_survives (dt_tzinfo t) = true ->
  roundtrip DateTime_to_xml DateTime_from_xml cls (VDateTime t)
  = Ok (VDateTime t).
Proof.
  intros Hv Hus Hz. rewrite roundtrip_DateTime.
  assert (Hus' : usec_survives (dt_microsecond t) = true).
  { destruct Hus as [Hm|H]; [|exact H].
    apply usec_survives_milliseconds; [|exact Hm].
    unfold valid_datetime, valid_time, between in Hv.
    repeat (apply andb_true_iff in Hv; destruct Hv as [Hv ?]).
    repeat match goal with
           | H : (_ <=? _) = true |- _ => apply Z.leb_le in H
           end.
    lia. }
  destruct (dt_tzinfo t) as [z|] eqn:Ez.
  - destruct (zone_offset_ranges z Hz) as [Hh _].
    rewrite (DateTime_from_xml_iso_zone cls _ t z Hv Hus' Ez).
    + unfold zone_read_back. rewrite (offset_read_back z Hz). cbn [bind].
      unfold replace_tzinfo. rewrite <- Ez, datetime_eta. reflexivity.
    + destruct z as [|m]; [simpl; lia|].
      unfold zone_survives in Hz.
      apply andb_true_iff in Hz. destruct Hz as [Hz _].
      apply andb_true_iff in Hz. destruct Hz as [_ Hz].
      apply Z.ltb_lt in Hz. exact Hz.
  - apply DateTime_from_xml_iso_naive; assumption.
Qed.

Lemma DateTime_roundtrip_witness :
  roundtrip DateTime_to_xml DateTime_from_xml DateTime
    (VDateTime (mkdatetime 2020 2 29 23 59 59 123000
                  (Some (FixedOffsetTz 330))))
  = Ok (VDateTime (mkdatetime 2020 2 29 23 59 59 123000
                     (Some (FixedOffsetTz 330)))).
Proof.
  apply (DateTime_roundtrip DateTime
           (mkdatetime 2020 2 29 23 59 59 123000 (Some (FixedOffsetTz 330)))).
  - reflexivity.
  - left. reflexivity.
  - reflexivity.
Defined.

Lemma negative_offset_read_back (m : Z) :
  - 1440 < m < 0 -> m mod 60 <> 0 ->
  zone_read_back (FixedOffsetTz m)
  = Ok (FixedOffsetTz (m + 2 * (Z.abs m mod 60)))
  /\ 0 < Z.abs m mod 60 < 60.
Proof.
  intros Hm Hnz. unfold zone_read_back, utcoffset.
  destruct (Z.ltb_spec m 0) as [_|]; [|lia].
  pose proof (Z.div_mod (Z.abs m) 60 ltac:(lia)) as E.
  pose proof (Z.mod_pos_bound (Z.abs m) 60 ltac:(lia)) as B.
  assert (Hq : 0 <= Z.abs m / 60) by (apply Z.div_pos; lia).
  assert (Hmm : Z.abs m mod 60 <> 0).
  { intros H0. apply Hnz.
    apply Z.mod_divide; [lia|].
    apply Z.mod_divide in H0; [|lia].
    rewrite Z.abs_neq in H0 by lia.
    exact (proj1 (Z.divide_opp_r 60 m) H0). }
  split; [|lia].
  replace (- (Z.abs m / 60) * 60 + Z.abs m mod 60)
    with (m + 2 * (Z.abs m mod 60)) by lia.
  unfold FixedOffset.
  destruct (Z.eqb_spec (m + 2 * (Z.abs m mod 60)) 0) as [H0|_]; [lia|].
  destruct (Z.leb_spec 1440 (Z.abs (m + 2 * (Z.abs m mod 60)))); [lia|].
  reflexivity.
Qed.

(** X10.  A negative offset that is not a whole number of hours does not
    come back.  For a datetime that the constructor accepts, whose
    microsecond is one that the conversion through [float] brings back,
    and whose zone is a fixed offset of [m] minutes with [-1440 < m < 0]
    and [m] not a multiple of 60: [isoformat] writes the offset as
    [-HH:MM]; [DateTime.from_xml] reads the hours with the sign and adds
    the minutes, so the datetime read back carries the offset
    [-(HH*60) + MM], which is [2*MM] minutes east of the one written, and
    is not the datetime written; every other field is as written. *)
Theorem DateTime_roundtrip_negative_offset (cls : class) (t : datetime)
    (m : Z) :
  valid_datetime t = true ->
  usec_survives (dt_microsecond t) = true ->
  dt_tzinfo t = Some (FixedOffsetTz m) ->
  - 1440 < m < 0 -> m mod 60 <> 0 ->
  roundtrip DateTime_to_xml DateTime_from_xml cls (VDateTime t)
  = Ok (VDateTime
          (replace_tzinfo t
             (Some (FixedOffsetTz (m + 2 * (Z.abs m mod 60))))))
  /\ roundtrip DateTime_to_xml DateTime_from_xml cls (VDateTime t)
     <> Ok (VDateTime t).
Proof.
  intros Hv Hus Ez Hm Hnz.
  destruct (negative_offset_read_back m Hm Hnz) as [Hr Hb].
  assert (E : roundtrip DateTime_to_xml DateTime_from_xml cls (VDateTime t)
              = Ok (VDateTime
                      (replace_tzinfo t
                         (Some (FixedOffsetTz (m + 2 * (Z.abs m mod 60))))))).
  { rewrite roundtrip_DateTime.
    rewrite (DateTime_from_xml_iso_zone cls _ t (FixedOffsetTz m) Hv Hus Ez)
      by (simpl; lia).
    rewrite Hr. reflexivity. }
  split; [exact E|].
  rewrite E. intros H. injection H as H.
  apply (f_equal dt_tzinfo) in H. rewrite Ez in H.
  unfold replace_tzinfo in H. cbn [dt_tzinfo] in H.
  assert (H' : m + 2 * (Z.abs m mod 60) = m).
  { injection H as H. exact H. }
  lia.
Qed.

Lemma DateTime_roundtrip_negative_offset_witness :
  roundtrip DateTime_to_xml DateTime_from_xml DateTime
    (VDateTime (mkdatetime 2020 1 15 10 30 0 0 (Some (FixedOffsetTz (-330)))))
  = Ok (VDateTime
          (mkdatetime 2020 1 15 10 30 0 0 (Some (FixedOffsetTz (-270))))).
Proof.
  apply (fun a b c d e =>
           proj1 (DateTime_roundtrip_negative_offset DateTime
                    (mkdatetime 2020 1 15 10 30 0 0
                       (Some (FixedOffsetTz (-330))))
                    (-330) a b c d e)).
  - reflexivity.
  - reflexivity.
  - reflexivity.
  - lia.
  - discriminate.
Defined.

(** ** [Integer.from_xml]: white space and missing text *)

Lemma lstrip_spaces (ws cs : list N) :
  forallb is_space ws = true -> lstrip (ws ++ cs) = lstrip cs.
Proof.
  induction ws as [|w r IH]; [reflexivity|].
  simpl. intros H. apply andb_true_iff in H. destruct H as [Hw Hr].
  rewrite Hw. exact (IH Hr).
Qed.

Lemma strip_spaces (ws : list N) :
  forallb is_space ws = true -> strip ws = [].
Proof.
  intros H. unfold strip.
  rewrite <- (app_nil_r ws), lstrip_spaces by exact H. reflexivity.
Qed.

Lemma forallb_rev {A} (f : A -> bool) (l : list A) :
  forallb f l = true -> forallb f (rev l) = true.
Proof.
  rewrite !forallb_forall. intros H x Hx. apply H, in_rev, Hx.
Qed.

Lemma strip_padded (ws1 core ws2 : list N) :
  forallb is_space ws1 = true -> forallb is_space ws2 = true ->
  no_space core -> strip (ws1 ++ core ++ ws2) = core.
Proof.
  intros H1 H2 Hc. unfold strip.
  rewrite lstrip_spaces by exact H1.
  destruct core as [|c r].
  - cbn [app]. apply (strip_spaces ws2 H2).
  - assert (E : lstrip ((c :: r) ++ ws2) = (c :: r) ++ ws2).
    { simpl. rewrite (Hc c) by (left; reflexivity). reflexivity. }
    rewrite E, rev_app_distr.
    rewrite lstrip_spaces by (apply forallb_rev, H2).
    rewrite lstrip_no_space, rev_involutive; [reflexivity|].
    intros x Hx. apply Hc, in_rev, Hx.
Qed.

(** X11.  [Integer.from_xml] accepts white space around the number: the
    decimal form of [n] with any white space before and after it is read
    as [n]. *)
Theorem Integer_from_xml_padded (cls : class) (tag : string) (n : Z)
    (ws1 ws2 : list N) :
  forallb is_space ws1 = true -> forallb is_space ws2 = true ->
  Integer_from_xml cls
    (Element tag [] (Some (PyStr (ws1 ++ str_int n ++ ws2))) [])
  = Ok (VInt n).
Proof.
  intros H1 H2. unfold Integer_from_xml.
  rewrite nillable_element_unmarked by reflexivity.
  unfold Integer_from_xml_body, text_of. cbn [elt_text].
  unfold py_int at 1. cbn [chars].
  rewrite strip_padded by (assumption || apply no_space_str_int).
  rewrite parse_signed_str_int. reflexivity.
Qed.

Lemma Integer_from_xml_padded_witness :
  Integer_from_xml Integer
    (Element "retval" []
       (Some (PyStr ([10; 32; 32]%N ++ str_int (-42) ++ [10]%N))) [])
  = Ok (VInt (-42)).
Proof.
  apply (Integer_from_xml_padded Integer "retval" (-42) [10; 32; 32]%N
           [10]%N); reflexivity.
Defined.

(** X12.  [Integer.from_xml] has no default: an element without text raises
    [TypeError] and a text of white space only (the empty text included)
    raises [ValueError], from [int] and again from the fallback [long]. *)
Theorem Integer_from_xml_blank (cls : class) (e : element) :
  nil_marked e = false ->
  (elt_text e = None -> Integer_from_xml cls e = Raise TypeError)
  /\ (forall t, elt_text e = Some t -> forallb is_space (chars t) = true ->
                Integer_from_xml cls e = Raise ValueError).
Proof.
  intros Hnil. unfold Integer_from_xml.
  rewrite nillable_element_unmarked by exact Hnil.
  unfold Integer_from_xml_body, text_of. split.
  - intros ->. reflexivity.
  - intros t -> Hs. unfold py_int, py_long.
    rewrite (strip_spaces _ Hs). reflexivity.
Qed.

Lemma Integer_from_xml_blank_witness :
  Integer_from_xml Integer (Element "retval" [] (Some (PyStr [32; 10]%N)) [])
  = Raise ValueError.
Proof.
  apply (proj2 (Integer_from_xml_blank Integer
                  (Element "retval" [] (Some (PyStr [32; 10]%N)) [])
                  eq_refl) (PyStr [32; 10]%N)); reflexivity.
Defined.

(** ** [DateTime.from_xml]: when the format is refused *)

Lemma bind_not_exception {A B} (m : result A) (k : A -> result B) :
  is_exception m = false -> (forall a, is_exception (k a) = false) ->
  is_exception (bind m k) = false.
Proof. intros Hm Hk. destruct m as [a|e]; [apply Hk|exact Hm]. Qed.

Lemma parse_unsigned_not_exception (ds : list N) :
  is_exception (parse_unsigned ds) = false.
Proof.
  unfold parse_unsigned. destruct ds; [reflexivity|].
  destruct (forallb is_digit _); reflexivity.
Qed.

Lemma parse_signed_not_exception (cs : list N) :
  is_exception (parse_signed cs) = false.
Proof.
  unfold parse_signed. destruct cs as [|c r]; [reflexivity|].
  destruct (N.eqb c 45).
  - apply bind_not_exception; [apply parse_unsigned_not_exception|].
    reflexivity.
  - destruct (N.eqb c 43); apply parse_unsigned_not_exception.
Qed.

Lemma py_int_not_exception (v : pyval) : is_exception (py_int v) = false.
Proof.
  destruct v; try reflexivity. apply parse_signed_not_exception.
Qed.

Lemma int_field_not_exception (fields : list (string * pyval))
    (name : string) :
  is_exception (int_field fields name) = false.
Proof.
  unfold int_field, dict_item.
  destruct (assoc_get name fields); [|reflexivity].
  apply py_int_not_exception.
Qed.

Lemma int_group_not_exception (m : match_obj) (name : string) :
  is_exception (int_group m name) = false.
Proof.
  unfold int_group, group.
  destruct (existsb _ _); [|reflexivity].
  destruct (assoc_get name (m_groups m)); apply py_int_not_exception.
Qed.

Lemma microsec_of_not_exception (v : pyval) :
  is_exception (microsec_of v) = false.
Proof.
  unfold microsec_of. apply bind_not_exception.
  - unfold py_float. destruct v; try reflexivity.
    destruct (parse_decimal _) as [[[neg ds] k]|]; reflexivity.
  - intros f. unfold int_of_float.
    destruct (float_mul_int f (10 ^ 6)); reflexivity.
Qed.

Lemma parse_datetime_not_exception (m : match_obj) (tz : option tzinfo) :
  is_exception (parse_datetime m tz) = false.
Proof.
  unfold parse_datetime.
  repeat (apply bind_not_exception;
          [first [apply int_field_not_exception
                 |apply microsec_of_not_exception]|intros ?]).
  apply bind_not_exception; [|reflexivity].
  unfold datetime_datetime. destruct (_ && _); reflexivity.
Qed.

Lemma FixedOffset_not_exception (off : Z) :
  is_exception (FixedOffset off) = false.
Proof.
  unfold FixedOffset. destruct (off =? 0); [reflexivity|].
  destruct (1440 <=? Z.abs off); reflexivity.
Qed.

(** The three patterns are nested: what [_utc_re] or [_offset_re] matches,
    [_local_re] matches as well. *)

Lemma flat_map_nonempty {A B} (f g : A -> list B) (l : list A) :
  (forall x, f x <> [] -> g x <> []) ->
  flat_map f l <> [] -> flat_map g l <> [].
Proof.
  intros H. induction l as [|x r IH]; [intros E; exact E|].
  simpl. intros E.
  destruct (f x) eqn:Ef.
  - intros G. apply app_eq_nil in G. destruct G as [_ G].
    exact (IH E G).
  - intros G. apply app_eq_nil in G. destruct G as [G _].
    apply (H x); [rewrite Ef; discriminate|exact G].
Qed.

Lemma rmatch_seq_weaken (r1 r2 r2' : regex) (s : list N) (c : captures) :
  (forall s' c', rmatch r2 s' c' <> [] -> rmatch r2' s' c' <> []) ->
  rmatch (Seq r1 r2) s c <> [] -> rmatch (Seq r1 r2') s c <> [].
Proof.
  intros H. cbn [rmatch]. apply flat_map_nonempty.
  intros m. apply H.
Qed.

Lemma rmatch_datetime_re_nested (tail : regex) (s : list N) (c : captures) :
  rmatch (datetime_re tail) s c <> [] -> rmatch (datetime_re Eps) s c <> [].
Proof.
  unfold datetime_re.
  do 11 (apply rmatch_seq_weaken; clear s c; intros s c).
  intros _. rewrite rmatch_seq_opt.
  intros E. apply app_eq_nil in E. destruct E as [_ E]. discriminate.
Qed.

Lemma local_no_match_others (s : list N) :
  rmatch _local_re s [] = [] ->
  rmatch _utc_re s [] = [] /\ rmatch _offset_re s [] = [].
Proof.
  rewrite _local_re_eq, _utc_re_eq, _offset_re_eq. intros H.
  split.
  - destruct (rmatch (datetime_re utc_tail) s []) eqn:E; [reflexivity|].
    exfalso. apply (rmatch_datetime_re_nested utc_tail s []); [|exact H].
    rewrite E. discriminate.
  - destruct (rmatch (datetime_re offset_tail) s []) eqn:E; [reflexivity|].
    exfalso. apply (rmatch_datetime_re_nested offset_tail s []); [|exact H].
    rewrite E. discriminate.
Qed.

(** X13.  The format error of [DateTime.from_xml] is raised exactly when the
    pattern without zone, [_local_re], does not match at the start of the
    text: every other failure is an error of [datetime], [pytz], [int] or
    [float] (a field out of range, an offset of a day or more), and a
    text that only carries something after a matching start is not
    refused for its format. *)
Theorem DateTime_format_error_iff (cls : class) (e : element) (t : pytext) :
  nil_marked e = false -> elt_text e = Some t ->
  (DateTime_from_xml cls e = Raise (not_in_known_format (VText t))
   <-> rmatch _local_re (chars t) [] = [])
  /\ (is_exception (DateTime_from_xml cls e) = true
      <-> rmatch _local_re (chars t) [] = []).
Proof.
  intros Hnil Ht. unfold DateTime_from_xml.
  rewrite nillable_element_unmarked by exact Hnil.
  unfold DateTime_from_xml_body, text_of. rewrite Ht.
  unfold re_match.
  destruct (rmatch _local_re (chars t) []) as [|ml l] eqn:El.
  - destruct (local_no_match_others _ El) as [Eu Eo].
    rewrite Eu, Eo. cbn [bind].
    split; split; reflexivity.
  - assert (N : is_exception
                  (m <- match rmatch _utc_re (chars t) [] with
                        | [] => Ok None
                        | m :: _ =>
                            Ok (Some (mkmatch (group_names _utc_re) (snd m)
                                        (is_unicode t)))
                        end ;;
                   match m with
                   | Some m0 => parse_datetime m0 (Some UTC)
                   | None =>
                       m0 <- match rmatch _offset_re (chars t) [] with
                             | [] => Ok None
                             | m0 :: _ =>
                                 Ok (Some (mkmatch (group_names _offset_re)
                                             (snd m0) (is_unicode t)))
                             end ;;
                       match m0 with
                       | Some m1 =>
                           tz_hr <- int_group m1 "tz_hr" ;;
                           tz_min <- int_group m1 "tz_min" ;;
                           tz <- FixedOffset (tz_hr * 60 + tz_min) ;;
                           parse_datetime m1 (Some tz)
                       | None =>
                           m1 <- Ok (Some (mkmatch (group_names _local_re)
                                             (snd ml) (is_unicode t))) ;;
                           match m1 with
                           | Some m2 => parse_datetime m2 None
                           | None => Raise (not_in_known_format (VText t))
                           end
                       end
                   end) = false).
    { destruct (rmatch _utc_re (chars t) []); cbn [bind];
        [|apply parse_datetime_not_exception].
      destruct (rmatch _offset_re (chars t) []); cbn [bind];
        [apply parse_datetime_not_exception|].
      apply bind_not_exception; [apply int_group_not_exception|intros ?].
      apply bind_not_exception; [apply int_group_not_exception|intros ?].
      apply bind_not_exception; [apply FixedOffset_not_exception|intros ?].
      apply parse_datetime_not_exception. }
    split; split; intros H; try discriminate.
    + rewrite H in N. discriminate.
    + rewrite H in N. discriminate.
Qed.

Lemma DateTime_format_error_iff_witness :
  DateTime_from_xml DateTime (text_element "15/01/2020")
  = Raise (not_in_known_format (VText (PyStr (codes "15/01/2020")))).
Proof.
  apply (proj2 (proj1 (DateTime_format_error_iff DateTime
                         (text_element "15/01/2020")
                         (PyStr (codes "15/01/2020")) eq_refl eq_refl))).
  reflexivity.
Defined.

(** Matching looks at a start of the text only: a way of matching [s]
    is a way of matching [s] followed by anything. *)

Lemma match_plus_app (k : charset) (u : list N) :
  forall s rest, In rest (match_plus k s) ->
                 In (rest ++ u) (match_plus k (s ++ u)).
Proof.
  induction s as [|c r IH]; intros rest H; [contradiction|].
  simpl in *. destruct (in_charset k c); [|contradiction].
  apply in_app_or in H. apply in_or_app. destruct H as [H|H].
  - left. apply IH, H.
  - right. destruct H as [<-|[]]. left. reflexivity.
Qed.

Lemma rmatch_app (u : list N) (r : regex) :
  forall s caps rest c,
    In (rest, c) (rmatch r s caps) ->
    forall caps', exists c', In (rest ++ u, c') (rmatch r (s ++ u) caps').
Proof.
  induction r as [|k|r1 IH1 r2 IH2|r1 IH1|k|n r1 IH1|name r1 IH1];
    intros s caps rest c H caps'.
  - destruct H as [H|[]]. injection H as <- <-.
    exists caps'. left. reflexivity.
  - destruct s as [|x s']; [contradiction|]. simpl in *.
    destruct (in_charset k x); [|contradiction].
    destruct H as [H|[]]. injection H as <- <-.
    exists caps'. left. reflexivity.
  - cbn [rmatch] in *. apply in_flat_map in H.
    destruct H as ([s1 c1] & H1 & H2). cbn [fst snd] in H2.
    destruct (IH1 _ _ _ _ H1 caps') as (c1' & H1').
    destruct (IH2 _ _ _ _ H2 c1') as (c' & H2').
    exists c'. apply in_flat_map. exists (s1 ++ u, c1').
    split; [exact H1'|exact H2'].
  - cbn [rmatch] in *. apply in_app_or in H. destruct H as [H|H].
    + destruct (IH1 _ _ _ _ H caps') as (c' & H').
      exists c'. apply in_or_app. left. exact H'.
    + destruct H as [H|[]]. injection H as <- <-.
      exists caps'. apply in_or_app. right. left. reflexivity.
  - cbn [rmatch] in *. apply in_map_iff in H.
    destruct H as (x & Hx & Hin). injection Hx as -> <-.
    exists caps'. apply in_map_iff. exists (rest ++ u).
    split; [reflexivity|]. apply match_plus_app, Hin.
  - revert s caps rest c H caps'.
    induction n as [|n IHn]; intros s caps rest c H caps'.
    + destruct H as [H|[]]. injection H as <- <-.
      exists caps'. left. reflexivity.
    + change (rmatch (Repeat (S n) r1) s caps)
        with (flat_map (fun m => rmatch (Repeat n r1) (fst m) (snd m))
                (rmatch r1 s caps)) in H.
      change (rmatch (Repeat (S n) r1) (s ++ u) caps')
        with (flat_map (fun m => rmatch (Repeat n r1) (fst m) (snd m))
                (rmatch r1 (s ++ u) caps')).
      apply in_flat_map in H.
      destruct H as ([s1 c1] & H1 & H2). cbn [fst snd] in H2.
      destruct (IH1 _ _ _ _ H1 caps') as (c1' & H1').
      destruct (IHn _ _ _ _ H2 c1') as (c' & H2').
      exists c'. apply in_flat_map. exists (s1 ++ u, c1').
      split; [exact H1'|exact H2'].
  - cbn [rmatch] in *. apply in_map_iff in H.
    destruct H as ([s1 c1] & Hx & Hin). cbn [fst snd] in Hx.
    injection Hx as -> <-.
    destruct (IH1 _ _ _ _ Hin caps') as (c1' & H1').
    eexists. apply in_map_iff. exists (rest ++ u, c1').
    split; [reflexivity|exact H1'].
Qed.

Lemma rmatch_app_nonempty (r : regex) (s u : list N) :
  rmatch r (s ++ u) [] = [] -> rmatch r s [] = [].
Proof.
  intros H. destruct (rmatch r s []) as [|[rest c] l] eqn:E; [reflexivity|].
  destruct (rmatch_app u r s [] rest c ltac:(rewrite E; left; reflexivity) [])
    as (c' & Hin).
  rewrite H in Hin. contradiction.
Qed.

(** X14.  Text after a start that the pattern matches is never the reason for a
    format error: when [DateTime.from_xml] refuses the format of a text,
    it refuses the format of every start of that text too. *)
Theorem DateTime_format_error_prefix (cls : class) (tag : string)
    (s u : list N) :
  DateTime_from_xml cls (Element tag [] (Some (PyStr (s ++ u))) [])
  = Raise (not_in_known_format (VText (PyStr (s ++ u)))) ->
  DateTime_from_xml cls (Element tag [] (Some (PyStr s)) [])
  = Raise (not_in_known_format (VText (PyStr s))).
Proof.
  intros H.
  apply (proj1 (DateTime_format_error_iff cls
                  (Element tag [] (Some (PyStr (s ++ u))) [])
                  (PyStr (s ++ u)) eq_refl eq_refl)) in H.
  apply (proj1 (DateTime_format_error_iff cls
                  (Element tag [] (Some (PyStr s)) [])
                  (PyStr s) eq_refl eq_refl)).
  apply (rmatch_app_nonempty _local_re s u), H.
Qed.

Lemma DateTime_format_error_prefix_witness :
  DateTime_from_xml DateTime (text_element "2020-01-15")
  = Raise (not_in_known_format (VText (PyStr (codes "2020-01-15")))).
Proof.
  apply (DateTime_format_error_prefix DateTime "retval" (codes "2020-01-15")
           (codes "T10:30")).
  reflexivity.
Defined.

(** ** [Any]: an element as a value *)

(** X15.  Any round trip.  An element written by [Any.to_xml] is read back by
    [Any.from_xml] as that element; a text is read back as the element it
    parses to, not as the text, and a text that does not parse raises the
    parser's error; [None] is read back as [None] when the type is
    nillable and is a [TypeError] when it is not. *)
Theorem Any_roundtrip (fromstring : pytext -> result element) (cls : class)
    (v : any_value) :
  roundtrip_any fromstring cls v
  = match v with
    | ATree e => Ok (ATree e)
    | AText t => e <- fromstring t ;; Ok (ATree e)
    | ANone => if nillable (attrs cls) then Ok ANone else Raise TypeError
    end.
Proof.
  unfold roundtrip_any, Any_to_xml, nillable_value_any, Any_to_xml_body.
  destruct v as [|t|e].
  - destruct (nillable (attrs cls)); reflexivity.
  - destruct (fromstring t); reflexivity.
  - reflexivity.
Qed.

(** [Any.from_xml] never raises and looks at the first child only. *)
Theorem Any_from_xml_first_child (cls : class) (e : element) :
  Any_from_xml cls e
  = Ok (if nil_marked e then ANone
        else match getchildren e with
             | [] => ANone
             | c :: _ => ATree c
             end).
Proof.
  unfold Any_from_xml, nillable_element_any, nil_marked, Any_from_xml_body.
  destruct (elt_get e (qname _ns_xsi "nil")); [reflexivity|].
  destruct (getchildren e); reflexivity.
Qed.

(** ** [DateTime.from_xml]: the suffix [Z] *)

Lemma rmatch_after_stamp_rest (tail : regex) (us : Z) (rest : list N)
    (caps : captures) :
  first_in Digit rest = false -> first_in (Char 46) rest = false ->
  exists l,
    rmatch (Seq (Opt frac_group) tail) (frac_part us ++ rest) caps
    = rmatch tail rest (frac_caps us caps) ++ l
    /\ (rejects_fraction tail -> l = []).
Proof.
  intros Hd Hp. unfold frac_part, frac_caps. destruct (us =? 0).
  - exists []. split; [|reflexivity]. rewrite app_nil_r. cbn [app].
    apply rmatch_no_fraction, Hp.
  - change (ch ".") with 46%N. cbn [app].
    apply rmatch_fraction.
    + pose proof (length_zfill 6 us) as H.
      intros E. rewrite E in H. discriminate.
    + apply all_digits_zfill.
    + exact Hd.
Qed.

Lemma datetime_isoformat_naive_app (sep : N) (t : datetime)
    (rest : list N) :
  dt_tzinfo t = None ->
  datetime_isoformat sep t ++ rest
  = zfill 4 (dt_year t) ++ [ch "-"] ++ zfill 2 (dt_month t) ++ [ch "-"]
      ++ zfill 2 (dt_day t) ++ [sep]
      ++ zfill 2 (dt_hour t) ++ [ch ":"] ++ zfill 2 (dt_minute t) ++ [ch ":"]
      ++ zfill 2 (dt_second t)
      ++ (frac_part (dt_microsecond t) ++ rest).
Proof.
  intros Hz. rewrite datetime_isoformat_parts, Hz.
  cbn [zone_part]. rewrite app_nil_r.
  repeat rewrite <- app_assoc. reflexivity.
Qed.

Lemma datetime_groups_in_utc (name : string) :
  In name datetime_groups ->
  existsb (String.eqb name) (group_names _utc_re) = true
  /\ assoc_get name (@nil (string * list N)) = None.
Proof.
  intros H. simpl in H.
  repeat (destruct H as [<-|H]; [split; reflexivity|]). contradiction.
Qed.

(** X16.  A text made of the date and time as [isoformat] writes them (with
    [T] or a space between the two) and the suffix [Z] is read as the
    datetime of those fields in the zone UTC. *)
Theorem DateTime_from_xml_Z (cls : class) (tag : string) (t : datetime)
    (sep : N) :
  valid_datetime t = true ->
  usec_survives (dt_microsecond t) = true ->
  dt_tzinfo t = None ->
  sep = ch "T" \/ sep = ch " " ->
  DateTime_from_xml cls
    (Element tag [] (Some (PyStr (datetime_isoformat sep t ++ [ch "Z"]))) [])
  = Ok (VDateTime (replace_tzinfo t (Some UTC))).
Proof.
  intros Hv Hus Ez Hsep.
  unfold DateTime_from_xml.
  rewrite nillable_element_unmarked by reflexivity.
  unfold DateTime_from_xml_body, text_of. cbn [elt_text].
  unfold re_match at 1. cbn [chars].
  rewrite _utc_re_eq, (datetime_isoformat_naive_app sep t _ Ez).
  rewrite rmatch_datetime_re by exact Hsep.
  destruct (rmatch_after_stamp_rest utc_tail (dt_microsecond t) [ch "Z"]
              (stamp_caps t) eq_refl eq_refl) as (l & Hl & Hnil).
  unfold stamp_caps in Hl. rewrite Hl.
  rewrite (Hnil rejects_fraction_utc_tail), app_nil_r.
  change (rmatch utc_tail [ch "Z"] ?c) with [(@nil N, c)].
  cbn [bind snd is_unicode].
  change (group_names (datetime_re utc_tail)) with (group_names _utc_re).
  match goal with
  | |- parse_datetime (mkmatch ?names ?g false) ?tz = ?rhs =>
      change (parse_datetime (mkmatch names ([] ++ g) false) tz = rhs)
  end.
  change (frac_caps (dt_microsecond t) _)
    with (frac_caps (dt_microsecond t) (stamp_caps t)).
  rewrite parse_datetime_iso; try assumption.
  - reflexivity.
  - intros name Hin. apply datetime_groups_in_utc, Hin.
Qed.

Lemma DateTime_from_xml_Z_witness :
  DateTime_from_xml DateTime (text_element "2020-01-15T10:30:00Z")
  = Ok (VDateTime (mkdatetime 2020 1 15 10 30 0 0 (Some UTC))).
Proof.
  apply (DateTime_from_xml_Z DateTime "retval"
           (mkdatetime 2020 1 15 10 30 0 0 None) (ch "T")).
  - reflexivity.
  - reflexivity.
  - reflexivity.
  - left. reflexivity.
Defined.

(** X17.  [DateTime.to_xml] never writes the form with [Z]: whatever datetime is
    written, UTC included (its suffix is [+00:00]), the text of the
    element written is not matched by [_utc_re]. *)
Theorem DateTime_to_xml_never_Z (cls : class) (t : datetime) (tns : string)
    (parent_elt : element) (name : string) :
  exists parent e,
    DateTime_to_xml cls (VDateTime t) tns parent_elt name = Ok parent
    /\ last_child parent = Some e
    /\ elt_text e = Some (PyStr (datetime_isoformat (ch "T") t))
    /\ re_match _utc_re (text_of e) = Ok None.
Proof.
  exists (append_child parent_elt
            (Element (qname tns name) []
               (Some (PyStr (datetime_isoformat (ch "T") t))) [])).
  eexists. split; [reflexivity|].
  split; [apply last_child_append|].
  split; [reflexivity|].
  unfold re_match, text_of. cbn [elt_text chars].
  rewrite iso_utc_no_match. reflexivity.
Qed.
